(** * MicroservicioAlmacen: the product API of [api.py]

    A shallow embedding of the FastAPI application of [api.py]: the Pydantic
    request and response models with their [Field] constraints, the
    [productos] table with the column constraints that the [Producto]
    mapping declares, and the five handlers, written as functions that pass
    the database state explicitly.

    - A Python [str] is a sequence of code points ([list N]); [len] counts
      code points, as Pydantic's [min_length]/[max_length] and PostgreSQL's
      [VARCHAR(n)] both do.  The code points are meant to be Unicode scalar
      values: a JSON string with a lone surrogate is no string for Pydantic
      and is outside the model.
    - A Python [float] is an IEEE 754 binary64 value ([PrimFloat.float]).
    - A Python [int] is an unbounded integer ([Z]).
    - [None] is [None] of [option].

    The database is PostgreSQL behind psycopg2, as the default
    [database_url] has it, with the constraints that the mapping declares:
    [nullable=False], the widths of the [String] columns, the 32 bits of
    the INTEGER column [stock], the primary key and its sequence.  The
    driver refuses a string that holds U+0000.  Left out: the end of the
    sequence (2^31 creations), the loss of the connection, and requests
    served at the same time.  The rendering of a 422 is modelled, see
    [rechazo]; a response that a handler returned is taken to be rendered
    as it is, which leaves out the rendering of a stored price that is not
    finite. *)

From Stdlib Require Import ZArith List Bool String Ascii Lia.
From Stdlib Require Import Sorted Permutation.
From Stdlib Require Import Floats.
Import ListNotations.

Open Scope Z_scope.

(** ** Python values *)

Definition str := list N.

Definition len (s : str) : Z := Z.of_nat (List.length s).

(** A literal, for examples: one code point per character. *)
Definition texto (s : string) : str :=
  map N_of_ascii (list_ascii_of_string s).

(** The option monad: a step that yields [None] aborts what follows. *)
Definition bind {A B : Type} (x : option A) (k : A -> option B) : option B :=
  match x with
  | Some a => k a
  | None => None
  end.

Notation "x <- e ;; k" := (bind e (fun x => k))
  (at level 61, e at next level, right associativity).

(** ** The mapped entity (api.py, class [Producto])

    An instance of the mapped class.  Every attribute but [id] can hold
    [None] on the Python side ([setattr] does not look at the column
    declaration); the columns' constraints are applied when the session is
    flushed, see [fila]. *)

Record Producto := mkProducto {
  id : Z;
  nombre : option str;
  descripcion : option str;
  precio : option float;
  stock : option Z;
  categoria : option str
}.

(** ** Request bodies

    A JSON body as the models see it, after Pydantic's type coercion: each
    declared key is absent, [null], or a value of the field's type.  A body
    in which a declared key carries a value of another JSON type (a number
    for [nombre], a string that is no number for [precio]) is not a value of
    [cuerpo]: what is proved about bodies is proved about well-typed ones.
    [b_id] is the key [id] a caller may send along: no request model
    declares it. *)

Inductive entrada (T : Type) : Type :=
| Ausente
| Nulo
| Valor (v : T).

Arguments Ausente {T}.
Arguments Nulo {T}.
Arguments Valor {T} v.

Record cuerpo := mkCuerpo {
  b_id : entrada Z;
  b_nombre : entrada str;
  b_descripcion : entrada str;
  b_precio : entrada float;
  b_stock : entrada Z;
  b_categoria : entrada str
}.

(** *** Field constraints *)

(** [Field(..., min_length=lo, max_length=hi)] *)
Definition longitud_ok (lo hi : Z) (s : str) : bool :=
  (lo <=? len s) && (len s <=? hi).

(** [Field(..., gt=0.0)] *)
Definition gt0 (x : float) : bool := (0 <? x)%float.

(** [Field(..., ge=0)] *)
Definition ge0 (n : Z) : bool := 0 <=? n.

Definition comprobar {T : Type} (ok : T -> bool) (v : T) : option T :=
  if ok v then Some v else None.

(** A required field, [x: T = Field(..., c)]: the key must be there, must
    not be [null], and the value must satisfy the constraint. *)
Definition requerido {T : Type} (ok : T -> bool) (e : entrada T) : option T :=
  match e with
  | Valor v => comprobar ok v
  | Ausente | Nulo => None
  end.

(** [categoria: Optional[str] = Field(None)]: no constraint, default [None]. *)
Definition opcional {T : Type} (e : entrada T) : option T :=
  match e with
  | Valor v => Some v
  | Ausente | Nulo => None
  end.

(** *** [ProductoCreate] (= [ProductoBase]) *)

Record ProductoCreate := mkProductoCreate {
  c_nombre : str;
  c_descripcion : str;
  c_precio : float;
  c_stock : Z;
  c_categoria : option str
}.

(** Validation of a body against [ProductoCreate]; [None] is a
    [RequestValidationError] (answered 422). *)
Definition validar_create (b : cuerpo) : option ProductoCreate :=
  n <- requerido (longitud_ok 1 100) (b_nombre b) ;;
  d <- requerido (longitud_ok 1 350) (b_descripcion b) ;;
  p <- requerido gt0 (b_precio b) ;;
  s <- requerido ge0 (b_stock b) ;;
  Some (mkProductoCreate n d p s (opcional (b_categoria b))).

(** *** [ProductoUpdate]

    Every field is [Optional[...] = Field(None, c)].  A validated model
    keeps, for each field, whether the body set it ([model_fields_set]) and
    the value it was set to, which may be [None]. *)

Inductive campo (T : Type) : Type :=
| NoEnviado
| Enviado (v : option T).

Arguments NoEnviado {T}.
Arguments Enviado {T} v.

Record ProductoUpdate := mkProductoUpdate {
  u_nombre : campo str;
  u_descripcion : campo str;
  u_precio : campo float;
  u_stock : campo Z;
  u_categoria : campo str
}.

(** An optional field with a constraint: the constraint is applied to a
    value, and [null] is accepted as it is. *)
Definition parcial {T : Type} (ok : T -> bool) (e : entrada T)
  : option (campo T) :=
  match e with
  | Ausente => Some NoEnviado
  | Nulo => Some (Enviado None)
  | Valor v => v' <- comprobar ok v ;; Some (Enviado (Some v'))
  end.

Definition validar_update (b : cuerpo) : option ProductoUpdate :=
  n <- parcial (longitud_ok 1 100) (b_nombre b) ;;
  d <- parcial (longitud_ok 1 350) (b_descripcion b) ;;
  p <- parcial gt0 (b_precio b) ;;
  s <- parcial ge0 (b_stock b) ;;
  c <- parcial (fun _ => true) (b_categoria b) ;;
  Some (mkProductoUpdate n d p s c).

(** [model_dump(exclude_unset=True)]: the items of the dictionary, in field
    order; an item is a key with the value it was set to. *)
Inductive asignacion :=
| set_nombre (v : option str)
| set_descripcion (v : option str)
| set_precio (v : option float)
| set_stock (v : option Z)
| set_categoria (v : option str).

Definition clave (a : asignacion) : string :=
  match a with
  | set_nombre _ => "nombre"
  | set_descripcion _ => "descripcion"
  | set_precio _ => "precio"
  | set_stock _ => "stock"
  | set_categoria _ => "categoria"
  end%string.

Definition item {T : Type} (mk : option T -> asignacion) (c : campo T)
  : list asignacion :=
  match c with
  | NoEnviado => []
  | Enviado v => [mk v]
  end.

Definition model_dump_exclude_unset (u : ProductoUpdate) : list asignacion :=
  item set_nombre (u_nombre u) ++
  item set_descripcion (u_descripcion u) ++
  item set_precio (u_precio u) ++
  item set_stock (u_stock u) ++
  item set_categoria (u_categoria u).

(** [producto.model_dump()] of a [ProductoCreate]: all five keys. *)
Definition model_dump (c : ProductoCreate) : list asignacion :=
  [ set_nombre (Some (c_nombre c));
    set_descripcion (Some (c_descripcion c));
    set_precio (Some (c_precio c));
    set_stock (Some (c_stock c));
    set_categoria (c_categoria c) ].

(** [setattr(db_producto, key, value)] *)
Definition setattr (p : Producto) (a : asignacion) : Producto :=
  match a with
  | set_nombre v =>
      mkProducto (id p) v (descripcion p) (precio p) (stock p) (categoria p)
  | set_descripcion v =>
      mkProducto (id p) (nombre p) v (precio p) (stock p) (categoria p)
  | set_precio v =>
      mkProducto (id p) (nombre p) (descripcion p) v (stock p) (categoria p)
  | set_stock v =>
      mkProducto (id p) (nombre p) (descripcion p) (precio p) v (categoria p)
  | set_categoria v =>
      mkProducto (id p) (nombre p) (descripcion p) (precio p) (stock p) v
  end.

(** [for key, value in update_data.items(): setattr(db_producto, key, value)] *)
Definition aplicar (update_data : list asignacion) (db_producto : Producto)
  : Producto :=
  fold_left setattr update_data db_producto.

(** ** The table [productos]

    The rows, in the order in which they were inserted, and the last value
    that the sequence behind the [autoincrement] primary key handed out. *)

Record BaseDatos := mkBaseDatos {
  productos : list Producto;
  productos_id_seq : Z
}.

(** The database after [create_all] on an empty schema. *)
Definition bd_vacia : BaseDatos := mkBaseDatos [] 0.

(** [String(n)], PostgreSQL's [VARCHAR(n)]: a longer value is refused, unless
    the characters beyond [n] are all spaces; then the value is cut to [n]. *)
Definition varchar (n : Z) (s : str) : option str :=
  if len s <=? n then Some s
  else if forallb (N.eqb 32) (skipn (Z.to_nat n) s)
       then Some (firstn (Z.to_nat n) s)
       else None.

Definition varchar_nullable (n : Z) (v : option str) : option (option str) :=
  match v with
  | None => Some None
  | Some s => s' <- varchar n s ;; Some (Some s')
  end.

(** A string as the driver passes it on: it refuses one that holds the
    character U+0000. *)
Definition sin_nul (s : str) : bool := forallb (fun c => negb (N.eqb c 0)) s.

(** A [String(n)] column: what the driver passes on, as [varchar n]. *)
Definition columna_str (n : Z) (s : str) : option str :=
  if sin_nul s then varchar n s else None.

Definition columna_str_nullable (n : Z) (v : option str)
  : option (option str) :=
  match v with
  | None => Some None
  | Some s => s' <- columna_str n s ;; Some (Some s')
  end.

(** A [Mapped[int]] column, PostgreSQL's INTEGER: a value outside 32 bits
    is refused. *)
Definition columna_int (n : Z) : option Z :=
  if (-2147483648 <=? n) && (n <=? 2147483647) then Some n else None.

(** The row that a flush writes for an instance, column by column:
    [nullable=False] refuses [None], [String(n)] is [columna_str n] and the
    stock is an INTEGER.  [None] is the error that the driver raises
    ([IntegrityError], [DataError], [ValueError]). *)
Definition fila (p : Producto) : option Producto :=
  n <- nombre p ;;
  n' <- columna_str 100 n ;;
  d <- descripcion p ;;
  d' <- columna_str 350 d ;;
  x <- precio p ;;
  s <- stock p ;;
  s' <- columna_int s ;;
  c' <- columna_str_nullable 50 (categoria p) ;;
  Some (mkProducto (id p) (Some n') (Some d') (Some x) (Some s') c').

Definition tiene_id (k : Z) (q : Producto) : bool := id q =? k.

(** [db.get(Producto, producto_id)] *)
Definition db_get (db : BaseDatos) (producto_id : Z) : option Producto :=
  find (tiene_id producto_id) (productos db).

(** The constructor [Producto] called with the items of [kwargs] as keyword
    arguments, with the id that the flush is about to assign. *)
Definition nuevo (k : Z) (kwargs : list asignacion) : Producto :=
  aplicar kwargs (mkProducto k None None None None None).

(** [db.add(p); db.commit()] for a new instance: an [INSERT] whose id is the
    next value of the sequence.  psycopg2 sends the values as literals, so
    the column types refuse a row when the statement is planned, before a
    value of the sequence is drawn.  The primary key refuses an id that a
    row already has when the statement runs: the value is drawn by then, and
    the sequence keeps it although the transaction is rolled back.  The
    second component is the id of the row written, if one was. *)
Definition INSERT (db : BaseDatos) (kwargs : list asignacion)
  : BaseDatos * option Z :=
  let k := productos_id_seq db + 1 in
  match fila (nuevo k kwargs) with
  | None => (db, None)
  | Some f =>
      if existsb (tiene_id k) (productos db)
      then (mkBaseDatos (productos db) k, None)
      else (mkBaseDatos (productos db ++ [f]) k, Some k)
  end.

(** [db.add(p); db.commit()] for a loaded instance: an [UPDATE] of the row
    with the instance's id. *)
Definition UPDATE (db : BaseDatos) (p : Producto) : option BaseDatos :=
  f <- fila p ;;
  Some (mkBaseDatos
          (map (fun q => if tiene_id (id p) q then f else q) (productos db))
          (productos_id_seq db)).

(** [db.delete(p); db.commit()] *)
Definition DELETE (db : BaseDatos) (p : Producto) : BaseDatos :=
  mkBaseDatos (filter (fun q => negb (tiene_id (id p) q)) (productos db))
              (productos_id_seq db).

(** [select(Producto).order_by(Producto.id)]: the rows sorted by id. *)
Fixpoint insertar_por_id (p : Producto) (l : list Producto) : list Producto :=
  match l with
  | [] => [p]
  | q :: l' => if id p <=? id q then p :: l else q :: insertar_por_id p l'
  end.

Definition order_by_id (l : list Producto) : list Producto :=
  fold_right insertar_por_id [] l.

(** ** Responses *)

(** [ProductoResponse]: the fields of [ProductoBase], with their
    constraints, and [id]. *)
Record ProductoResponse := mkProductoResponse {
  r_id : Z;
  r_nombre : str;
  r_descripcion : str;
  r_precio : float;
  r_stock : Z;
  r_categoria : option str
}.

(** Validation of a returned instance against [response_model]
    ([from_attributes = True]); [None] is a [ResponseValidationError]. *)
Definition ProductoResponse_validate (p : Producto) : option ProductoResponse :=
  n <- nombre p ;;
  n' <- comprobar (longitud_ok 1 100) n ;;
  d <- descripcion p ;;
  d' <- comprobar (longitud_ok 1 350) d ;;
  x <- precio p ;;
  x' <- comprobar gt0 x ;;
  s <- stock p ;;
  s' <- comprobar ge0 s ;;
  Some (mkProductoResponse (id p) n' d' x' s' (categoria p)).

(** [ListaProductosResponse]: every element is validated. *)
Fixpoint ListaProductosResponse_validate (l : list Producto)
  : option (list ProductoResponse) :=
  match l with
  | [] => Some []
  | p :: l' =>
      r <- ProductoResponse_validate p ;;
      rs <- ListaProductosResponse_validate l' ;;
      Some (r :: rs)
  end.

Inductive contenido :=
| JSON_producto (r : ProductoResponse)
| JSON_lista (rs : list ProductoResponse)
| JSON_detail (detail : string)
| JSON_errores
| Sin_contenido
| Error_interno.

Record respuesta := mkRespuesta {
  status_code : Z;
  content : contenido
}.

(** What a handler's body does: it returns, it raises [HTTPException], or
    an exception of the session escapes it. *)
Inductive resultado (A : Type) : Type :=
| Devuelve (a : A)
| HTTPException (status : Z) (detail : string)
| Excepcion.

Arguments Devuelve {A} a.
Arguments HTTPException {A} status detail.
Arguments Excepcion {A}.

Definition no_encontrado {A : Type} : resultado A :=
  HTTPException 404 "Producto no encontrado".

(** ** The handlers

    Each takes the database the session is bound to and returns the
    database as the request leaves it: a commit that raises leaves it as it
    was. *)

(** [db.refresh(p)] followed by [return p] *)
Definition refresh (db : BaseDatos) (k : Z) : BaseDatos * resultado Producto :=
  match db_get db k with
  | Some p => (db, Devuelve p)
  | None => (db, Excepcion)
  end.

Definition crear_producto (db : BaseDatos) (producto : ProductoCreate)
  : BaseDatos * resultado Producto :=
  match INSERT db (model_dump producto) with
  | (db', Some k) => refresh db' k
  | (db', None) => (db', Excepcion)
  end.

Definition obtener_productos (db : BaseDatos)
  : BaseDatos * resultado (list Producto) :=
  let productos_db := order_by_id (productos db) in
  (db, Devuelve productos_db).

Definition obtener_producto (db : BaseDatos) (producto_id : Z)
  : BaseDatos * resultado Producto :=
  match db_get db producto_id with
  | None => (db, no_encontrado)
  | Some producto_db => (db, Devuelve producto_db)
  end.

Definition actualizar_producto (db : BaseDatos) (producto_id : Z)
    (producto_update : ProductoUpdate) : BaseDatos * resultado Producto :=
  match db_get db producto_id with
  | None => (db, no_encontrado)
  | Some db_producto =>
      let update_data := model_dump_exclude_unset producto_update in
      let db_producto := aplicar update_data db_producto in
      match UPDATE db db_producto with
      | Some db' => refresh db' (id db_producto)
      | None => (db, Excepcion)
      end
  end.

Definition eliminar_producto (db : BaseDatos) (producto_id : Z)
  : BaseDatos * resultado unit :=
  match db_get db producto_id with
  | None => (db, no_encontrado)
  | Some db_producto => (DELETE db db_producto, Devuelve tt)
  end.

(** ** The routes: validation of the body, the handler, the response *)

Definition error_422 : respuesta := mkRespuesta 422 JSON_errores.
Definition error_500 : respuesta := mkRespuesta 500 Error_interno.
Definition error_404 : respuesta :=
  mkRespuesta 404 (JSON_detail "Producto no encontrado").

(** *** The answer to a body that fails validation

    A [RequestValidationError] is answered with a 422 whose JSON body lists
    the errors, each with the input it refused.  A constraint that fails
    echoes the value of its field, [null] where a value is required echoes
    [null], and a required key that is missing echoes the whole body.  The
    body is rendered as strict JSON: when an error echoes a float that is
    not finite the rendering raises, and the answer is 500. *)

Inductive eco :=
| eco_null
| eco_str (s : str)
| eco_float (x : float)
| eco_int (n : Z)
| eco_body (b : cuerpo).

(** The errors of a required field. *)
Definition error_requerido {T : Type} (valor : T -> eco) (ok : T -> bool)
    (b : cuerpo) (e : entrada T) : list eco :=
  match e with
  | Ausente => [eco_body b]
  | Nulo => [eco_null]
  | Valor v => if ok v then [] else [valor v]
  end.

(** The errors of an optional field with a constraint. *)
Definition error_parcial {T : Type} (valor : T -> eco) (ok : T -> bool)
    (e : entrada T) : list eco :=
  match e with
  | Valor v => if ok v then [] else [valor v]
  | Ausente | Nulo => []
  end.

(** The errors of a body against [ProductoCreate]. *)
Definition errores_create (b : cuerpo) : list eco :=
  error_requerido eco_str (longitud_ok 1 100) b (b_nombre b) ++
  error_requerido eco_str (longitud_ok 1 350) b (b_descripcion b) ++
  error_requerido eco_float gt0 b (b_precio b) ++
  error_requerido eco_int ge0 b (b_stock b).

(** The errors of a body against [ProductoUpdate]. *)
Definition errores_update (b : cuerpo) : list eco :=
  error_parcial eco_str (longitud_ok 1 100) (b_nombre b) ++
  error_parcial eco_str (longitud_ok 1 350) (b_descripcion b) ++
  error_parcial eco_float gt0 (b_precio b) ++
  error_parcial eco_int ge0 (b_stock b).

(** An echoed input that strict JSON can render. *)
Definition eco_json (e : eco) : bool :=
  match e with
  | eco_float x => is_finite x
  | eco_body b =>
      match b_precio b with
      | Valor x => is_finite x
      | Ausente | Nulo => true
      end
  | eco_null | eco_str _ | eco_int _ => true
  end.

Definition rechazo (errores : list eco) : respuesta :=
  if forallb eco_json errores then error_422 else error_500.

Definition responder {A : Type} (codigo : Z) (modelo : A -> option contenido)
    (r : resultado A) : respuesta :=
  match r with
  | Devuelve a =>
      match modelo a with
      | Some c => mkRespuesta codigo c
      | None => error_500
      end
  | HTTPException s d => mkRespuesta s (JSON_detail d)
  | Excepcion => error_500
  end.

Definition un_producto (p : Producto) : option contenido :=
  r <- ProductoResponse_validate p ;; Some (JSON_producto r).

Definition una_lista (l : list Producto) : option contenido :=
  rs <- ListaProductosResponse_validate l ;; Some (JSON_lista rs).

Definition nada (_ : unit) : option contenido := Some Sin_contenido.

(** [POST /productos], [status_code=201] *)
Definition post_productos (db : BaseDatos) (b : cuerpo) : BaseDatos * respuesta :=
  match validar_create b with
  | None => (db, rechazo (errores_create b))
  | Some producto =>
      let (db', r) := crear_producto db producto in
      (db', responder 201 un_producto r)
  end.

(** [GET /productos] *)
Definition get_productos (db : BaseDatos) : BaseDatos * respuesta :=
  let (db', r) := obtener_productos db in
  (db', responder 200 una_lista r).

(** [GET /productos/{producto_id}] *)
Definition get_producto (db : BaseDatos) (producto_id : Z)
  : BaseDatos * respuesta :=
  let (db', r) := obtener_producto db producto_id in
  (db', responder 200 un_producto r).

(** [PUT /productos/{producto_id}] *)
Definition put_producto (db : BaseDatos) (producto_id : Z) (b : cuerpo)
  : BaseDatos * respuesta :=
  match validar_update b with
  | None => (db, rechazo (errores_update b))
  | Some producto_update =>
      let (db', r) := actualizar_producto db producto_id producto_update in
      (db', responder 200 un_producto r)
  end.

(** [DELETE /productos/{producto_id}], [status_code=204] *)
Definition delete_producto (db : BaseDatos) (producto_id : Z)
  : BaseDatos * respuesta :=
  let (db', r) := eliminar_producto db producto_id in
  (db', responder 204 nada r).

(** ** Sequences of requests *)

Inductive peticion :=
| POST_productos (b : cuerpo)
| GET_productos
| GET_producto (producto_id : Z)
| PUT_producto (producto_id : Z) (b : cuerpo)
| DELETE_producto (producto_id : Z).

Definition atender (db : BaseDatos) (r : peticion) : BaseDatos * respuesta :=
  match r with
  | POST_productos b => post_productos db b
  | GET_productos => get_productos db
  | GET_producto k => get_producto db k
  | PUT_producto k b => put_producto db k b
  | DELETE_producto k => delete_producto db k
  end.

(** The requests of [l] served one after the other, with their responses. *)
Fixpoint ejecutar (db : BaseDatos) (l : list peticion)
  : BaseDatos * list respuesta :=
  match l with
  | [] => (db, [])
  | r :: l' =>
      let (db1, x) := atender db r in
      let (db2, xs) := ejecutar db1 l' in
      (db2, x :: xs)
  end.

(** ** The persistence contract in the spec's words

    [deleteById(id) -> boolean]: removes the row if present; returns whether
    a row was actually removed.  The source has no function of that name:
    [eliminar_producto] looks the row up and deletes it, and is compared
    with this definition below. *)
Definition deleteById (db : BaseDatos) (k : Z) : BaseDatos * bool :=
  (mkBaseDatos (filter (fun q => negb (tiene_id k q)) (productos db))
               (productos_id_seq db),
   existsb (tiene_id k) (productos db)).

(** ** Invariants of the table *)

(** An attribute holds a value, and the value satisfies [ok]. *)
Definition cumple {T : Type} (ok : T -> bool) (v : option T) : bool :=
  match v with
  | Some x => ok x
  | None => false
  end.

Definition no_vacia (s : str) : bool := 1 <=? len s.

(** The four constrained attributes, with a test for the name and one for
    the description. *)
Definition campos_ok (okn okd : str -> bool) (p : Producto) : bool :=
  cumple okn (nombre p) && cumple okd (descripcion p) &&
  cumple gt0 (precio p) && cumple ge0 (stock p).

(** The invariants of the data model: [price > 0], [stock >= 0], and a name
    and a description that are neither [None] nor empty. *)
Definition invariantes (p : Producto) : bool := campos_ok no_vacia no_vacia p.

(** The constraints of [ProductoResponse], as a test. *)
Definition respuesta_ok (p : Producto) : bool :=
  campos_ok (longitud_ok 1 100) (longitud_ok 1 350) p.

(** A row as the service stores it: it satisfies the columns' constraints
    and the response model accepts it. *)
Definition fila_valida (p : Producto) : Prop :=
  fila p = Some p /\ respuesta_ok p = true.

(** A table as the service keeps it: valid rows, whose ids are distinct
    values that the sequence has handed out. *)
Record bd_ok (db : BaseDatos) : Prop := mk_bd_ok {
  ok_filas : Forall fila_valida (productos db);
  ok_ids : Forall (fun i => 0 < i <= productos_id_seq db)
             (map id (productos db));
  ok_unicos : NoDup (map id (productos db));
  ok_seq : 0 <= productos_id_seq db
}.

(** The ids of the products that the 201 responses of a run carry. *)
Definition id_creado (x : respuesta) : list Z :=
  if status_code x =? 201 then
    match content x with
    | JSON_producto r => [r_id r]
    | _ => []
    end
  else [].

Definition ids_creados (xs : list respuesta) : list Z :=
  flat_map id_creado xs.


(** ** Example requests *)


(** The product of the spec's scenario; the price is the binary64 value
    nearest to 399.99. *)
Definition monitor : cuerpo :=
  mkCuerpo Ausente (Valor (texto "Monitor")) (Valor (texto "4K display"))
           (Valor 0x1.8ffd70a3d70a4p+8%float) (Valor 75)
           (Valor (texto "Electronics")).

Definition teclado : cuerpo :=
  mkCuerpo Ausente (Valor (texto "Teclado")) (Valor (texto "Mecanico"))
           (Valor 50%float) (Valor 3) Nulo.

(** [{"stock": 10}] *)
Definition solo_stock_10 : cuerpo :=
  mkCuerpo Ausente Ausente Ausente Ausente (Valor 10) Ausente.

(** [{"nombre": null}] *)
Definition nombre_nulo : cuerpo :=
  mkCuerpo Ausente Nulo Ausente Ausente Ausente Ausente.


(** The monitor with a category of 51 characters. *)
Definition monitor_categoria_51 : cuerpo :=
  mkCuerpo Ausente (Valor (texto "Monitor")) (Valor (texto "4K display"))
           (Valor 0x1.8ffd70a3d70a4p+8%float) (Valor 75)
           (Valor (repeat 97%N 51)).

(** The database after the monitor was created. *)
Definition bd_monitor : BaseDatos := fst (post_productos bd_vacia monitor).

(** The field of a validated [ProductoUpdate] for a key of the body. *)
Definition campo_de {T : Type} (e : entrada T) : campo T :=
  match e with
  | Ausente => NoEnviado
  | Nulo => Enviado None
  | Valor v => Enviado (Some v)
  end.

(** The value of an attribute after the items of a dumped field are set. *)
Definition tras {T : Type} (c : campo T) (previo : option T) : option T :=
  match c with
  | NoEnviado => previo
  | Enviado v => v
  end.

(** The response to the creation of the monitor on the empty database. *)
Definition monitor_creado : ProductoResponse :=
  mkProductoResponse 1 (texto "Monitor") (texto "4K display")
    0x1.8ffd70a3d70a4p+8%float 75 (Some (texto "Electronics")).

(** The invariants of the data model, spelled out. *)
Definition producto_ok (p : Producto) : Prop :=
  exists n d x s,
    nombre p = Some n /\ 1 <= len n /\
    descripcion p = Some d /\ 1 <= len d /\
    precio p = Some x /\ (0 <? x)%float = true /\
    stock p = Some s /\ 0 <= s.

(** A body with the key [id] set to [i]. *)
Definition con_id (i : entrada Z) (b : cuerpo) : cuerpo :=
  mkCuerpo i (b_nombre b) (b_descripcion b) (b_precio b) (b_stock b)
           (b_categoria b).


(** [{"descripcion": null}], [{"precio": null}], [{"stock": null}] *)
Definition descripcion_nula : cuerpo :=
  mkCuerpo Ausente Ausente Nulo Ausente Ausente Ausente.

Definition precio_nulo : cuerpo :=
  mkCuerpo Ausente Ausente Ausente Nulo Ausente Ausente.

Definition stock_nulo : cuerpo :=
  mkCuerpo Ausente Ausente Ausente Ausente Nulo Ausente.

(** The monitor with a category of 50 letters and a trailing space. *)
Definition monitor_categoria_espacio : cuerpo :=
  mkCuerpo Ausente (Valor (texto "Monitor")) (Valor (texto "4K display"))
           (Valor 0x1.8ffd70a3d70a4p+8%float) (Valor 75)
           (Valor (repeat 97%N 50 ++ [32%N])).

(** The order of [ORDER BY id]. *)
Definition por_id (a b : Producto) : Prop := id a <= id b.

(** ** Observations on runs and requests *)


(** A response that reports an error, of the client or of the server. *)
Definition es_error (x : respuesta) : bool := 400 <=? status_code x.

(** A request that writes to the product [k]: a PUT or a DELETE on it. *)
Definition escribe_en (k : Z) (r : peticion) : bool :=
  match r with
  | PUT_producto k' _ | DELETE_producto k' => k' =? k
  | _ => false
  end.

(** The products of a 200 response to GET /productos. *)
Definition listado (db : BaseDatos) : list ProductoResponse :=
  match content (snd (get_productos db)) with
  | JSON_lista rs => rs
  | _ => []
  end.

(** The database after the keyboard and the monitor were created. *)
Definition bd_dos : BaseDatos :=
  fst (ejecutar bd_vacia [POST_productos teclado; POST_productos monitor]).

(** ** What a PUT does, given the row it finds

    The row that a PUT writes, if it writes one, and its response, as they
    follow from the row stored under the id ([None] when there is none) and
    the body. *)
Definition efecto_put (g : option Producto) (b : cuerpo)
  : option Producto * respuesta :=
  match validar_update b with
  | None => (None, rechazo (errores_update b))
  | Some u =>
      match g with
      | None => (None, error_404)
      | Some p =>
          match fila (aplicar (model_dump_exclude_unset u) p) with
          | None => (None, error_500)
          | Some f => (Some f, responder 200 un_producto (Devuelve f))
          end
      end
  end.

(** The table with the rows under [k] replaced by [f], if there is an [f]. *)
Definition escribir (db : BaseDatos) (k : Z) (o : option Producto) : BaseDatos :=
  match o with
  | None => db
  | Some f =>
      mkBaseDatos (map (fun q => if tiene_id k q then f else q) (productos db))
                  (productos_id_seq db)
  end.



(** The keyboard as the second creation returns it. *)
Definition teclado_creado : ProductoResponse :=
  mkProductoResponse 2 (texto "Teclado") (texto "Mecanico") 50%float 3 None.

(** A table whose rows were loaded with their ids while the sequence was
    left at its start: valid rows with distinct ids, but not ids that the
    sequence has handed out, so not a table that the service reaches from
    the empty one. *)
Definition bd_importada : BaseDatos :=
  mkBaseDatos
    [mkProducto 1 (Some (texto "Monitor")) (Some (texto "4K display"))
       (Some 0x1.8ffd70a3d70a4p+8%float) (Some 75)
       (Some (texto "Electronics"));
     mkProducto 5 (Some (texto "Raton")) (Some (texto "Optico"))
       (Some 20%float) (Some 8) None]
    0.

(** * Properties *)

(** ** The option monad and the field constraints *)

Lemma bind_Some {A B : Type} (x : option A) (k : A -> option B) (b : B) :
  bind x k = Some b -> exists a, x = Some a /\ k a = Some b.
Proof.
  destruct x as [a|]; simpl; intros H; [exists a; auto | discriminate].
Qed.

Lemma bind_None_l {A B : Type} (x : option A) (k : A -> option B) :
  x = None -> bind x k = None.
Proof. intros ->. reflexivity. Qed.

(** Splits every [bind _ _ = Some _] among the hypotheses. *)
Ltac abrir :=
  repeat match goal with
  | H : bind _ _ = Some _ |- _ =>
      let a := fresh "a" in
      let E := fresh "E" in
      apply bind_Some in H; destruct H as (a & E & H)
  | H : Some _ = Some _ |- _ => injection H as H
  end.

Lemma comprobar_Some {T : Type} (ok : T -> bool) (v w : T) :
  comprobar ok v = Some w -> w = v /\ ok v = true.
Proof.
  unfold comprobar. destruct (ok v); intros H; [injection H as <-; auto | discriminate].
Qed.

Lemma comprobar_ok {T : Type} (ok : T -> bool) (v : T) :
  ok v = true -> comprobar ok v = Some v.
Proof. unfold comprobar. intros ->. reflexivity. Qed.

Lemma requerido_Some {T : Type} (ok : T -> bool) (e : entrada T) (v : T) :
  requerido ok e = Some v -> e = Valor v /\ ok v = true.
Proof.
  destruct e as [| |w]; simpl; try discriminate.
  intros H. apply comprobar_Some in H. destruct H as [-> H]. auto.
Qed.

Lemma Prim2SF_cero : Prim2SF 0%float = S754_zero false.
Proof. vm_compute. reflexivity. Qed.

(** A price that is zero or negative is not greater than zero. *)
Lemma leb_cero_no_gt0 (x : float) : (x <=? 0)%float = true -> gt0 x = false.
Proof.
  unfold gt0. rewrite leb_spec, ltb_spec, Prim2SF_cero.
  destruct (Prim2SF x) as [s|s| |s m e]; try destruct s;
    cbv [SFleb SFltb SFcompare]; congruence.
Qed.

Lemma gt0_no_nulo (x : float) : gt0 x = true -> (x <=? 0)%float = false.
Proof.
  intros H. destruct (x <=? 0)%float eqn:E; [|reflexivity].
  apply leb_cero_no_gt0 in E. congruence.
Qed.

Lemma validar_create_Some (b : cuerpo) (c : ProductoCreate) :
  validar_create b = Some c ->
  b_nombre b = Valor (c_nombre c) /\ longitud_ok 1 100 (c_nombre c) = true /\
  b_descripcion b = Valor (c_descripcion c) /\
  longitud_ok 1 350 (c_descripcion c) = true /\
  b_precio b = Valor (c_precio c) /\ gt0 (c_precio c) = true /\
  b_stock b = Valor (c_stock c) /\ ge0 (c_stock c) = true /\
  c_categoria c = opcional (b_categoria b).
Proof.
  unfold validar_create. intros H. abrir. subst c. simpl.
  apply requerido_Some in E, E0, E1, E2. intuition.
Qed.

(** ** The answer to a refused body *)

Lemma rechazo_status (errores : list eco) :
  status_code (rechazo errores) = 422 \/ status_code (rechazo errores) = 500.
Proof. unfold rechazo. destruct (forallb eco_json errores); auto. Qed.

(** Closes a goal whose hypothesis [H] equates a refusal with a response
    whose status is neither 422 nor 500. *)
Ltac no_es_rechazo H :=
  exfalso;
  let S := fresh "S" in
  match type of H with
  | context [rechazo ?l] => pose proof (rechazo_status l) as S
  end;
  cbn [fst snd] in H;
  first [ injection H as _ H; rewrite H in S | rewrite H in S ];
  simpl in S; destruct S; discriminate.

Lemma rechazo_no_crea (errores : list eco) : id_creado (rechazo errores) = [].
Proof. unfold rechazo. destruct (forallb eco_json errores); reflexivity. Qed.

Lemma rechazo_es_error (errores : list eco) : es_error (rechazo errores) = true.
Proof. unfold rechazo. destruct (forallb eco_json errores); reflexivity. Qed.








(** The validators refuse a body exactly when it has errors. *)
Lemma validar_create_errores (b : cuerpo) :
  validar_create b = None <-> errores_create b <> [].
Proof.
  unfold validar_create, errores_create, requerido, error_requerido, comprobar.
  destruct (b_nombre b) as [| |n]; simpl; try (split; [discriminate | reflexivity]).
  destruct (longitud_ok 1 100 n); simpl; [|split; [discriminate | reflexivity]].
  destruct (b_descripcion b) as [| |d]; simpl;
    try (split; [discriminate | reflexivity]).
  destruct (longitud_ok 1 350 d); simpl; [|split; [discriminate | reflexivity]].
  destruct (b_precio b) as [| |x]; simpl;
    try (split; [discriminate | reflexivity]).
  destruct (gt0 x); simpl; [|split; [discriminate | reflexivity]].
  destruct (b_stock b) as [| |t]; simpl;
    try (split; [discriminate | reflexivity]).
  destruct (ge0 t); simpl; split; congruence.
Qed.

Lemma validar_update_errores (b : cuerpo) :
  validar_update b = None <-> errores_update b <> [].
Proof.
  unfold validar_update, errores_update, parcial, error_parcial, comprobar.
  destruct (b_nombre b) as [| |n], (b_descripcion b) as [| |d],
    (b_precio b) as [| |x], (b_stock b) as [| |t],
    (b_categoria b) as [| |c]; simpl;
    repeat match goal with
    | |- context [if ?g then _ else _] => destruct g; simpl
    end; split; congruence.
Qed.

(** ** C4: a creation that violates the price or stock constraint *)



(** ** Lookups in the table after a statement *)

Lemma tiene_id_spec (k : Z) (q : Producto) : tiene_id k q = true <-> id q = k.
Proof. unfold tiene_id. apply Z.eqb_eq. Qed.

Lemma tiene_id_false (k : Z) (q : Producto) : tiene_id k q = false <-> id q <> k.
Proof. unfold tiene_id. apply Z.eqb_neq. Qed.

Lemma db_get_Some (db : BaseDatos) (k : Z) (p : Producto) :
  db_get db k = Some p -> In p (productos db) /\ id p = k.
Proof.
  unfold db_get. intros H. apply find_some in H.
  rewrite tiene_id_spec in H. exact H.
Qed.

Lemma db_get_None (db : BaseDatos) (k : Z) :
  db_get db k = None <-> forall q, In q (productos db) -> id q <> k.
Proof.
  unfold db_get. split.
  - intros H q Hq. apply tiene_id_false. exact (find_none _ _ H q Hq).
  - intros H. destruct (find _ _) as [q|] eqn:E; [|reflexivity].
    apply find_some in E. destruct E as [Hq E].
    apply tiene_id_spec in E. destruct (H q Hq E).
Qed.

Lemma db_get_existsb (db : BaseDatos) (k : Z) :
  existsb (tiene_id k) (productos db) = false <-> db_get db k = None.
Proof.
  rewrite db_get_None. split.
  - intros H q Hq. apply tiene_id_false.
    destruct (tiene_id k q) eqn:E; [|reflexivity].
    rewrite <- H. symmetry. apply existsb_exists. exists q. auto.
  - intros H. destruct (existsb _ _) eqn:E; [|reflexivity].
    apply existsb_exists in E. destruct E as (q & Hq & E).
    apply tiene_id_spec in E. destruct (H q Hq E).
Qed.

Lemma find_filter_otro (k k' : Z) (l : list Producto) :
  k' <> k ->
  find (tiene_id k') (filter (fun q => negb (tiene_id k q)) l) =
  find (tiene_id k') l.
Proof.
  intros Hk. induction l as [|q l IH]; simpl; [reflexivity|].
  destruct (tiene_id k q) eqn:E; simpl.
  - apply tiene_id_spec in E.
    assert (F : tiene_id k' q = false) by (apply tiene_id_false; lia).
    rewrite F. exact IH.
  - destruct (tiene_id k' q); [reflexivity | exact IH].
Qed.

Lemma db_get_DELETE_mismo (db : BaseDatos) (p : Producto) :
  db_get (DELETE db p) (id p) = None.
Proof.
  apply db_get_None. simpl. intros q Hq. apply filter_In in Hq.
  destruct Hq as [_ Hq]. apply negb_true_iff in Hq.
  apply tiene_id_false. exact Hq.
Qed.

Lemma db_get_DELETE_otro (db : BaseDatos) (p : Producto) (k' : Z) :
  k' <> id p -> db_get (DELETE db p) k' = db_get db k'.
Proof. intros H. unfold db_get. simpl. apply find_filter_otro. exact H. Qed.

Lemma filter_unico (k : Z) (l : list Producto) :
  NoDup (map id l) -> existsb (tiene_id k) l = true ->
  (List.length (filter (fun q => negb (tiene_id k q)) l) + 1 =
   List.length l)%nat.
Proof.
  induction l as [|q l IH]; simpl; intros ND E; [discriminate|].
  inversion ND as [|? ? Hnot ND']; subst.
  destruct (tiene_id k q) eqn:Eq; simpl.
  - apply tiene_id_spec in Eq.
    assert (F : filter (fun q0 => negb (tiene_id k q0)) l = l).
    { apply forallb_filter_id. apply forallb_forall. intros r Hr.
      apply negb_true_iff, tiene_id_false. intros Er.
      apply Hnot. rewrite Eq, <- Er. apply in_map. exact Hr. }
    rewrite F. lia.
  - rewrite IH; auto.
Qed.

(** ** C6: requests on an id that the table does not have *)






(** ** C7: deleting a row that the table has *)

Lemma deleteById_informa (db : BaseDatos) (k : Z) :
  snd (deleteById db k) = true <->
  (List.length (productos (fst (deleteById db k))) <
   List.length (productos db))%nat.
Proof.
  unfold deleteById. simpl. induction (productos db) as [|q l IH]; simpl.
  - split; [discriminate | lia].
  - destruct (tiene_id k q); simpl.
    + split; [intros _ | reflexivity].
      pose proof (filter_length_le (fun q0 => negb (tiene_id k q0)) l). lia.
    + rewrite IH. lia.
Qed.

Lemma eliminar_refina_deleteById (db : BaseDatos) (k : Z) :
  fst (delete_producto db k) = fst (deleteById db k) /\
  status_code (snd (delete_producto db k)) =
  (if snd (deleteById db k) then 204 else 404).
Proof.
  unfold delete_producto, eliminar_producto, deleteById. simpl.
  destruct (db_get db k) as [p|] eqn:E; simpl.
  - apply db_get_Some in E. destruct E as [Hp <-]. split; [reflexivity|].
    replace (existsb (tiene_id (id p)) (productos db)) with true; [reflexivity|].
    symmetry. apply existsb_exists. exists p. split; [exact Hp|].
    apply tiene_id_spec. reflexivity.
  - pose proof E as E'. apply db_get_existsb in E'. rewrite E'.
    split; [|reflexivity].
    destruct db as [l s]. simpl in *. f_equal. symmetry.
    apply forallb_filter_id. apply forallb_forall. intros q Hq.
    apply negb_true_iff, tiene_id_false.
    rewrite db_get_None in E. exact (E q Hq).
Qed.

(** C7. For an id that the table has, DELETE answers 204 with an empty
    body and removes the row for good: no row with that id is left, every
    other row stays as it was (same rows, same order, same lookups), and one
    row less is stored.  The handler agrees with the contract's
    [deleteById]: its status tells whether a row was removed (204) or not
    (404), and the table it leaves is the one [deleteById] leaves. *)
Theorem C7_eliminar_204 (db : BaseDatos) (k : Z) (p : Producto) :
  db_get db k = Some p ->
  snd (delete_producto db k) = mkRespuesta 204 Sin_contenido /\
  db_get (fst (delete_producto db k)) k = None /\
  ~ In p (productos (fst (delete_producto db k))) /\
  productos (fst (delete_producto db k)) =
    filter (fun q => negb (tiene_id k q)) (productos db) /\
  (forall q, id q <> k ->
     (In q (productos (fst (delete_producto db k))) <-> In q (productos db))) /\
  (forall k', k' <> k ->
     db_get (fst (delete_producto db k)) k' = db_get db k') /\
  (NoDup (map id (productos db)) ->
     (List.length (productos (fst (delete_producto db k))) + 1 =
      List.length (productos db))%nat) /\
  deleteById db k = (fst (delete_producto db k), true) /\
  (forall k', fst (delete_producto db k') = fst (deleteById db k') /\
     status_code (snd (delete_producto db k')) =
     (if snd (deleteById db k') then 204 else 404)).
Proof.
  intros H. pose proof (db_get_Some _ _ _ H) as [Hin Hid].
  assert (Ex : existsb (tiene_id k) (productos db) = true).
  { apply existsb_exists. exists p. split; [exact Hin|].
    apply tiene_id_spec. exact Hid. }
  unfold delete_producto, eliminar_producto. rewrite H. simpl. subst k.
  repeat split.
  - apply db_get_DELETE_mismo.
  - intros Hp. apply filter_In in Hp. destruct Hp as [_ Hp].
    apply negb_true_iff, tiene_id_false in Hp. congruence.
  - intros Hq. apply filter_In in Hq. tauto.
  - intros Hq. apply filter_In. split; [exact Hq|].
    apply negb_true_iff, tiene_id_false. assumption.
  - intros k' Hk. apply db_get_DELETE_otro. exact Hk.
  - intros ND. apply filter_unico; assumption.
  - unfold deleteById, DELETE. rewrite Ex. reflexivity.
  - apply eliminar_refina_deleteById.
  - apply eliminar_refina_deleteById.
Qed.

Lemma C7_witness :
  snd (delete_producto bd_monitor 1) = mkRespuesta 204 Sin_contenido /\
  db_get (fst (delete_producto bd_monitor 1)) 1 = None.
Proof.
  assert (H : db_get bd_monitor 1 = Some
                (mkProducto 1 (Some (texto "Monitor"))
                   (Some (texto "4K display"))
                   (Some 0x1.8ffd70a3d70a4p+8%float) (Some 75)
                   (Some (texto "Electronics")))) by reflexivity.
  destruct (C7_eliminar_204 bd_monitor 1 _ H) as (A & B & _).
  split; [exact A | exact B].
Defined.

(** ** The update: validation, the dumped items, the flush *)

Lemma parcial_Some {T : Type} (ok : T -> bool) (e : entrada T) (c : campo T) :
  parcial ok e = Some c ->
  c = campo_de e /\ (forall v, e = Valor v -> ok v = true).
Proof.
  destruct e as [| |w]; simpl; intros H.
  - injection H as <-. split; [reflexivity | discriminate].
  - injection H as <-. split; [reflexivity | discriminate].
  - abrir. apply comprobar_Some in E. destruct E as [-> E]. subst c.
    split; [reflexivity|]. intros v Hv. injection Hv as <-. exact E.
Qed.

Lemma validar_update_Some (b : cuerpo) (u : ProductoUpdate) :
  validar_update b = Some u ->
  u = mkProductoUpdate (campo_de (b_nombre b)) (campo_de (b_descripcion b))
        (campo_de (b_precio b)) (campo_de (b_stock b))
        (campo_de (b_categoria b)) /\
  (forall v, b_nombre b = Valor v -> longitud_ok 1 100 v = true) /\
  (forall v, b_descripcion b = Valor v -> longitud_ok 1 350 v = true) /\
  (forall v, b_precio b = Valor v -> gt0 v = true) /\
  (forall v, b_stock b = Valor v -> ge0 v = true).
Proof.
  unfold validar_update. intros H. abrir.
  apply parcial_Some in E, E0, E1, E2, E3.
  destruct E as [-> ?], E0 as [-> ?], E1 as [-> ?], E2 as [-> ?], E3 as [-> _].
  subst u. auto.
Qed.

Lemma aplicar_dump (u : ProductoUpdate) (p : Producto) :
  aplicar (model_dump_exclude_unset u) p =
  mkProducto (id p) (tras (u_nombre u) (nombre p))
    (tras (u_descripcion u) (descripcion p)) (tras (u_precio u) (precio p))
    (tras (u_stock u) (stock p)) (tras (u_categoria u) (categoria p)).
Proof.
  destruct p as [i n d x s c], u as [[|vn] [|vd] [|vx] [|vs] [|vc]];
    reflexivity.
Qed.

Lemma setattr_id (p : Producto) (a : asignacion) : id (setattr p a) = id p.
Proof. destruct a; reflexivity. Qed.

Lemma aplicar_id (l : list asignacion) (p : Producto) : id (aplicar l p) = id p.
Proof.
  unfold aplicar. revert p. induction l as [|a l IH]; intros p; simpl.
  - reflexivity.
  - rewrite IH. apply setattr_id.
Qed.

Lemma varchar_corto (n : Z) (s : str) : len s <= n -> varchar n s = Some s.
Proof.
  intros H. unfold varchar. apply Z.leb_le in H. rewrite H. reflexivity.
Qed.

Lemma longitud_ok_spec (lo hi : Z) (s : str) :
  longitud_ok lo hi s = true <-> lo <= len s <= hi.
Proof.
  unfold longitud_ok. rewrite andb_true_iff, !Z.leb_le. tauto.
Qed.

Lemma varchar_nullable_corto (n : Z) (v : option str) :
  (forall s, v = Some s -> len s <= n) -> varchar_nullable n v = Some v.
Proof.
  intros H. destruct v as [s|]; simpl; [|reflexivity].
  rewrite varchar_corto; [reflexivity | auto].
Qed.

Lemma columna_str_Some (n : Z) (s s' : str) :
  columna_str n s = Some s' -> sin_nul s = true /\ varchar n s = Some s'.
Proof.
  unfold columna_str. destruct (sin_nul s); [auto | discriminate].
Qed.

Lemma columna_str_corta (n : Z) (s : str) :
  sin_nul s = true -> len s <= n -> columna_str n s = Some s.
Proof.
  intros N L. unfold columna_str. rewrite N. apply varchar_corto. exact L.
Qed.

Lemma columna_str_nullable_Some (n : Z) (v v' : option str) :
  columna_str_nullable n v = Some v' -> varchar_nullable n v = Some v'.
Proof.
  destruct v as [s|]; simpl; [|auto]. intros H. abrir.
  apply columna_str_Some in E. destruct E as [_ ->]. subst v'. reflexivity.
Qed.

Lemma columna_int_Some (n n' : Z) :
  columna_int n = Some n' -> n' = n /\ -2147483648 <= n <= 2147483647.
Proof.
  unfold columna_int.
  destruct ((-2147483648 <=? n) && (n <=? 2147483647)) eqn:E; [|discriminate].
  intros H. injection H as <-. apply andb_true_iff in E.
  rewrite !Z.leb_le in E. auto.
Qed.

Lemma columna_int_ok (n : Z) :
  -2147483648 <= n <= 2147483647 -> columna_int n = Some n.
Proof.
  intros H. unfold columna_int.
  replace ((-2147483648 <=? n) && (n <=? 2147483647)) with true; [reflexivity|].
  symmetry. apply andb_true_iff. rewrite !Z.leb_le. exact H.
Qed.

(** What [fila] yields, column by column. *)
Lemma fila_Some (p f : Producto) :
  fila p = Some f ->
  id f = id p /\
  (exists n n', nombre p = Some n /\ varchar 100 n = Some n' /\
                nombre f = Some n') /\
  (exists d d', descripcion p = Some d /\ varchar 350 d = Some d' /\
                descripcion f = Some d') /\
  (exists x, precio p = Some x /\ precio f = Some x) /\
  (exists s, stock p = Some s /\ stock f = Some s) /\
  varchar_nullable 50 (categoria p) = Some (categoria f).
Proof.
  unfold fila. intros H. abrir. subst f. simpl.
  apply columna_str_Some in E0, E2. destruct E0 as [_ E0], E2 as [_ E2].
  apply columna_int_Some in E5. destruct E5 as [-> _].
  apply columna_str_nullable_Some in E6.
  split; [reflexivity|]. repeat split; eauto.
Qed.

(** The same, with the checks of the driver and of the INTEGER column. *)
Lemma fila_Some_columna (p f : Producto) :
  fila p = Some f ->
  id f = id p /\
  (exists n n', nombre p = Some n /\ columna_str 100 n = Some n' /\
                nombre f = Some n') /\
  (exists d d', descripcion p = Some d /\ columna_str 350 d = Some d' /\
                descripcion f = Some d') /\
  (exists x, precio p = Some x /\ precio f = Some x) /\
  (exists s s', stock p = Some s /\ columna_int s = Some s' /\
                stock f = Some s') /\
  columna_str_nullable 50 (categoria p) = Some (categoria f).
Proof.
  unfold fila. intros H. abrir. subst f. simpl.
  split; [reflexivity|]. repeat split; eauto.
Qed.

(** What the driver and the INTEGER column let through. *)
Lemma fila_Some_columnas (p f : Producto) :
  fila p = Some f ->
  (forall n, nombre p = Some n -> sin_nul n = true) /\
  (forall d, descripcion p = Some d -> sin_nul d = true) /\
  (forall c, categoria p = Some c -> sin_nul c = true) /\
  (forall s, stock p = Some s -> -2147483648 <= s <= 2147483647).
Proof.
  unfold fila. intros H. abrir.
  apply columna_str_Some in E0, E2. destruct E0 as [N0 _], E2 as [N2 _].
  apply columna_int_Some in E5. destruct E5 as [_ R5].
  split; [|split; [|split]].
  - intros n En. congruence.
  - intros d Ed. congruence.
  - intros c Ec. rewrite Ec in E6. simpl in E6. abrir.
    match goal with
    | K : columna_str 50 c = Some _ |- _ =>
        apply columna_str_Some in K; destruct K as [K _]; exact K
    end.
  - intros z Ez. replace z with a4 by congruence. exact R5.
Qed.

(** A stored row is written back as it is. *)
Lemma fila_marco (p p1 f : Producto) :
  fila p = Some p -> fila p1 = Some f ->
  (nombre p1 = nombre p -> nombre f = nombre p) /\
  (descripcion p1 = descripcion p -> descripcion f = descripcion p) /\
  (precio p1 = precio p -> precio f = precio p) /\
  (stock p1 = stock p -> stock f = stock p) /\
  (categoria p1 = categoria p -> categoria f = categoria p).
Proof.
  intros Hp Hf. apply fila_Some in Hp, Hf.
  destruct Hp as (_ & (n & n' & Hn & Vn & Hn') & (d & d' & Hd & Vd & Hd') &
                  (x & Hx & _) & (s & Hs & _) & Hc).
  destruct Hf as (_ & (m & m' & Hm & Vm & Hm') & (e & e' & He & Ve & He') &
                  (y & Hy & Hy') & (t & Ht & Ht') & Hc').
  repeat split; intros E.
  - rewrite E in Hm. congruence.
  - rewrite E in He. congruence.
  - congruence.
  - congruence.
  - rewrite E in Hc'. congruence.
Qed.

Lemma find_map_reemplazo (k : Z) (f : Producto) (l : list Producto) :
  id f = k ->
  find (tiene_id k) (map (fun q => if tiene_id k q then f else q) l) =
  match find (tiene_id k) l with
  | Some _ => Some f
  | None => None
  end.
Proof.
  intros Hf. induction l as [|q l IH]; simpl; [reflexivity|].
  destruct (tiene_id k q) eqn:E.
  - assert (F : tiene_id k f = true) by (apply tiene_id_spec; exact Hf).
    rewrite F. reflexivity.
  - rewrite E. exact IH.
Qed.

Lemma find_map_otro (k k' : Z) (f : Producto) (l : list Producto) :
  id f = k -> k' <> k ->
  find (tiene_id k') (map (fun q => if tiene_id k q then f else q) l) =
  find (tiene_id k') l.
Proof.
  intros Hf Hk. induction l as [|q l IH]; simpl; [reflexivity|].
  destruct (tiene_id k q) eqn:E.
  - apply tiene_id_spec in E.
    assert (F : tiene_id k' f = false) by (apply tiene_id_false; lia).
    assert (G : tiene_id k' q = false) by (apply tiene_id_false; lia).
    rewrite F, G. exact IH.
  - destruct (tiene_id k' q); [reflexivity | exact IH].
Qed.

Lemma UPDATE_Some (db db' : BaseDatos) (p1 : Producto) :
  UPDATE db p1 = Some db' ->
  exists f, fila p1 = Some f /\
    (forall p, db_get db (id p1) = Some p -> db_get db' (id p1) = Some f) /\
    (forall k', k' <> id p1 -> db_get db' k' = db_get db k') /\
    map id (productos db') = map id (productos db) /\
    productos_id_seq db' = productos_id_seq db.
Proof.
  unfold UPDATE. intros H. abrir. subst db'. exists a.
  pose proof (fila_Some _ _ E) as (Hid & _).
  split; [exact E|]. unfold db_get. simpl. repeat split.
  - intros p Hp. rewrite find_map_reemplazo by exact Hid. rewrite Hp. reflexivity.
  - intros k' Hk. apply find_map_otro; assumption.
  - rewrite map_map. apply map_ext_in. intros q _.
    destruct (tiene_id (id p1) q) eqn:Eq; [|reflexivity].
    apply tiene_id_spec in Eq. congruence.
Qed.

(** The three ways in which a PUT on a stored product ends. *)
Lemma put_producto_casos (db : BaseDatos) (k : Z) (b : cuerpo) (p : Producto) :
  db_get db k = Some p ->
  (validar_update b = None /\
   put_producto db k b = (db, rechazo (errores_update b))) \/
  (exists u, validar_update b = Some u /\
     fila (aplicar (model_dump_exclude_unset u) p) = None /\
     put_producto db k b = (db, error_500)) \/
  (exists u f db', validar_update b = Some u /\
     fila (aplicar (model_dump_exclude_unset u) p) = Some f /\
     UPDATE db (aplicar (model_dump_exclude_unset u) p) = Some db' /\
     db_get db' k = Some f /\
     put_producto db k b = (db', responder 200 un_producto (Devuelve f))).
Proof.
  intros H. pose proof (db_get_Some _ _ _ H) as [_ Hid].
  unfold put_producto, actualizar_producto.
  destruct (validar_update b) as [u|]; [right | left; auto].
  rewrite H. set (p1 := aplicar (model_dump_exclude_unset u) p).
  assert (Hid1 : id p1 = k) by (unfold p1; rewrite aplicar_id; exact Hid).
  destruct (UPDATE db p1) as [db'|] eqn:EU.
  - right. destruct (UPDATE_Some _ _ _ EU) as (f & Ef & Hget & _).
    rewrite Hid1 in Hget. specialize (Hget p H).
    exists u, f, db'. unfold refresh. rewrite Hid1, Hget. auto.
  - left. exists u. split; [reflexivity|]. split; [|reflexivity].
    change (fila p1 = None). unfold UPDATE in EU.
    destruct (fila p1); [discriminate | reflexivity].
Qed.

Lemma responder_200 (f : Producto) (x : respuesta) :
  x = responder 200 un_producto (Devuelve f) -> status_code x = 200 ->
  un_producto f = Some (content x).
Proof.
  intros -> H. simpl in *. destruct (un_producto f); [reflexivity|].
  simpl in H. discriminate.
Qed.

Lemma fila_set_stock (p : Producto) (n : Z) :
  -2147483648 <= n <= 2147483647 ->
  fila p = Some p ->
  fila (setattr p (set_stock (Some n))) = Some (setattr p (set_stock (Some n))).
Proof.
  intros R H. pose proof H as H'. unfold fila in H'. abrir.
  destruct p as [i pn pd px ps pc]. simpl in *.
  injection H' as Hn Hd Hx Hs Hc. subst.
  injection Hn as ->. injection Hd as ->.
  unfold fila. simpl. rewrite E0. simpl. rewrite E2. simpl.
  rewrite (columna_int_ok n R). simpl. rewrite E6. reflexivity.
Qed.

Lemma validate_set_stock (p : Producto) (r : ProductoResponse) (n : Z) :
  ProductoResponse_validate p = Some r -> 0 <= n ->
  ProductoResponse_validate (setattr p (set_stock (Some n))) =
  Some (mkProductoResponse (r_id r) (r_nombre r) (r_descripcion r)
          (r_precio r) n (r_categoria r)).
Proof.
  intros H Hn. unfold ProductoResponse_validate in *. abrir. subst r. simpl.
  rewrite E, E1, E3. simpl. rewrite E0, E2, E4. simpl.
  rewrite comprobar_ok by (apply Z.leb_le; exact Hn). reflexivity.
Qed.

Lemma put_solo_stock (db : BaseDatos) (k : Z) (p : Producto)
    (r : ProductoResponse) :
  db_get db k = Some p -> fila p = Some p ->
  ProductoResponse_validate p = Some r ->
  snd (put_producto db k solo_stock_10) =
    mkRespuesta 200
      (JSON_producto
         (mkProductoResponse (r_id r) (r_nombre r) (r_descripcion r)
            (r_precio r) 10 (r_categoria r))) /\
  db_get (fst (put_producto db k solo_stock_10)) k =
    Some (setattr p (set_stock (Some 10))).
Proof.
  intros H Hf Hr.
  assert (V : validar_update solo_stock_10 =
              Some (mkProductoUpdate NoEnviado NoEnviado NoEnviado
                      (Enviado (Some 10)) NoEnviado)) by reflexivity.
  pose proof (fila_set_stock p 10 ltac:(lia) Hf) as F.
  destruct (put_producto_casos db k solo_stock_10 p H)
    as [(N & _) | [(u & Hu & N & _) | (u & f & db' & Hu & Ef & _ & Hg & ->)]].
  - congruence.
  - rewrite V in Hu. injection Hu as <-.
    change (fila (setattr p (set_stock (Some 10))) = None) in N. congruence.
  - rewrite V in Hu. injection Hu as <-.
    change (fila (setattr p (set_stock (Some 10))) = Some f) in Ef.
    assert (f = setattr p (set_stock (Some 10))) as -> by congruence.
    cbn [fst snd]. split; [|exact Hg].
    unfold responder, un_producto.
    rewrite (validate_set_stock p r 10 Hr) by lia. reflexivity.
Qed.

(** C1. A PUT on a stored product changes at most the fields that its body
    supplies.  Whatever the body, the product is still stored under its id
    and every field whose key the body omits keeps its stored value (it is
    not reset to [None] or to a default); no other row changes.  When the
    answer is 200 the body of the response is the stored row, and each
    supplied value is the stored value of its field (for a category, one
    that fits the column).  In particular the body [{"stock": 10}] is
    answered 200 with stock 10 and the name, description, price and category
    that the product had. *)
Theorem C1_actualizacion_parcial (db : BaseDatos) (k : Z) (b : cuerpo)
    (p : Producto) :
  db_get db k = Some p -> fila p = Some p ->
  (exists p',
     db_get (fst (put_producto db k b)) k = Some p' /\
     id p' = id p /\
     (b_nombre b = Ausente -> nombre p' = nombre p) /\
     (b_descripcion b = Ausente -> descripcion p' = descripcion p) /\
     (b_precio b = Ausente -> precio p' = precio p) /\
     (b_stock b = Ausente -> stock p' = stock p) /\
     (b_categoria b = Ausente -> categoria p' = categoria p) /\
     (status_code (snd (put_producto db k b)) = 200 ->
        un_producto p' = Some (content (snd (put_producto db k b))) /\
        (forall v, b_nombre b = Valor v -> nombre p' = Some v) /\
        (forall v, b_descripcion b = Valor v -> descripcion p' = Some v) /\
        (forall v, b_precio b = Valor v -> precio p' = Some v) /\
        (forall v, b_stock b = Valor v -> stock p' = Some v) /\
        (forall v, b_categoria b = Valor v -> len v <= 50 ->
           categoria p' = Some v))) /\
  (forall k', k' <> k -> db_get (fst (put_producto db k b)) k' = db_get db k') /\
  (forall r, ProductoResponse_validate p = Some r ->
     snd (put_producto db k solo_stock_10) =
       mkRespuesta 200
         (JSON_producto
            (mkProductoResponse (r_id r) (r_nombre r) (r_descripcion r)
               (r_precio r) 10 (r_categoria r))) /\
     db_get (fst (put_producto db k solo_stock_10)) k =
       Some (setattr p (set_stock (Some 10)))).
Proof.
  intros H Hf. pose proof (db_get_Some _ _ _ H) as [_ Hid].
  split; [|split]; [| |intros r Hr; exact (put_solo_stock db k p r H Hf Hr)].
  - destruct (put_producto_casos db k b p H)
      as [(_ & ->) | [(u & _ & _ & ->) | (u & f & db' & Hu & Ef & _ & Hg & ->)]].
    + exists p. cbn [fst snd]. repeat split; auto;
        match goal with
        | St : status_code (rechazo _) = 200 |- _ =>
            destruct (rechazo_status (errores_update b)) as [S | S];
            rewrite S in St; discriminate
        end.
    + exists p. simpl. repeat split; auto; discriminate.
    + exists f. simpl fst. simpl snd.
      apply validar_update_Some in Hu.
      destruct Hu as (-> & Vn & Vd & Vx & Vs).
      rewrite aplicar_dump in Ef. simpl in Ef.
      destruct (fila_marco _ _ _ Hf Ef) as (Mn & Md & Mx & Ms & Mc).
      simpl in Mn, Md, Mx, Ms, Mc.
      destruct (fila_Some _ _ Ef)
        as (Fi & (n & n' & Hn & Wn & Hn') & (d & d' & Hd & Wd & Hd') &
            (x & Hx & Hx') & (s & Hs & Hs') & Hc).
      simpl in Fi, Hn, Hd, Hx, Hs, Hc.
      split; [exact Hg|]. split; [exact Fi|].
      split; [intros E; apply Mn; rewrite E; reflexivity|].
      split; [intros E; apply Md; rewrite E; reflexivity|].
      split; [intros E; apply Mx; rewrite E; reflexivity|].
      split; [intros E; apply Ms; rewrite E; reflexivity|].
      split; [intros E; apply Mc; rewrite E; reflexivity|].
      intros St. split; [apply responder_200; [reflexivity | exact St]|].
      repeat split.
      * intros v E. rewrite E in Hn. simpl in Hn. injection Hn as <-.
        specialize (Vn v E). apply longitud_ok_spec in Vn.
        rewrite varchar_corto in Wn by lia. congruence.
      * intros v E. rewrite E in Hd. simpl in Hd. injection Hd as <-.
        specialize (Vd v E). apply longitud_ok_spec in Vd.
        rewrite varchar_corto in Wd by lia. congruence.
      * intros v E. rewrite E in Hx. simpl in Hx. congruence.
      * intros v E. rewrite E in Hs. simpl in Hs. congruence.
      * intros v E Hv. rewrite E in Hc. simpl in Hc.
        rewrite varchar_corto in Hc by exact Hv. simpl in Hc. congruence.
  - intros k' Hk.
    destruct (put_producto_casos db k b p H)
      as [(_ & ->) | [(u & _ & _ & ->) | (u & f & db' & _ & _ & EU & _ & ->)]];
      try reflexivity.
    simpl fst. destruct (UPDATE_Some _ _ _ EU) as (_ & _ & _ & Ho & _).
    apply Ho. rewrite aplicar_id. lia.
Qed.

Lemma C1_witness :
  snd (put_producto bd_monitor 1 solo_stock_10) =
    mkRespuesta 200
      (JSON_producto
         (mkProductoResponse 1 (texto "Monitor") (texto "4K display")
            0x1.8ffd70a3d70a4p+8%float 10 (Some (texto "Electronics")))) /\
  db_get (fst (put_producto bd_monitor 1 solo_stock_10)) 1 =
    Some (mkProducto 1 (Some (texto "Monitor")) (Some (texto "4K display"))
            (Some 0x1.8ffd70a3d70a4p+8%float) (Some 10)
            (Some (texto "Electronics"))).
Proof.
  pose (p := mkProducto 1 (Some (texto "Monitor")) (Some (texto "4K display"))
               (Some 0x1.8ffd70a3d70a4p+8%float) (Some 75)
               (Some (texto "Electronics"))).
  assert (H : db_get bd_monitor 1 = Some p) by reflexivity.
  assert (Hf : fila p = Some p) by reflexivity.
  destruct (C1_actualizacion_parcial bd_monitor 1 solo_stock_10 p H Hf)
    as (_ & _ & Ej).
  exact (Ej (mkProductoResponse 1 (texto "Monitor") (texto "4K display")
               0x1.8ffd70a3d70a4p+8%float 75 (Some (texto "Electronics")))
            eq_refl).
Defined.

(** ** Valid rows *)

Lemma cumple_Some {T : Type} (ok : T -> bool) (v : option T) :
  cumple ok v = true <-> exists x, v = Some x /\ ok x = true.
Proof.
  destruct v as [x|]; simpl; split.
  - intros H. exists x. auto.
  - intros (y & E & H). injection E as ->. exact H.
  - discriminate.
  - intros (y & E & _). discriminate.
Qed.

Lemma validate_Some (p : Producto) (r : ProductoResponse) :
  ProductoResponse_validate p = Some r ->
  r_id r = id p /\ nombre p = Some (r_nombre r) /\
  descripcion p = Some (r_descripcion r) /\ precio p = Some (r_precio r) /\
  stock p = Some (r_stock r) /\ r_categoria r = categoria p /\
  respuesta_ok p = true.
Proof.
  unfold ProductoResponse_validate, respuesta_ok, campos_ok. intros H. abrir.
  apply comprobar_Some in E0, E2, E4, E6.
  destruct E0 as [-> ?], E2 as [-> ?], E4 as [-> ?], E6 as [-> ?].
  subst r. simpl. rewrite E, E1, E3, E5. simpl.
  rewrite H0, H1, H2, H3. auto 10.
Qed.


Lemma respuesta_ok_invariantes (p : Producto) :
  respuesta_ok p = true -> invariantes p = true.
Proof.
  unfold respuesta_ok, invariantes, campos_ok. rewrite !andb_true_iff.
  intros (((Hn & Hd) & Hx) & Hs). repeat split; try assumption.
  - apply cumple_Some in Hn. destruct Hn as (n & -> & Hn). simpl.
    apply longitud_ok_spec in Hn. apply Z.leb_le. lia.
  - apply cumple_Some in Hd. destruct Hd as (d & -> & Hd). simpl.
    apply longitud_ok_spec in Hd. apply Z.leb_le. lia.
Qed.

Lemma len_firstn (n : Z) (s : str) :
  0 <= n -> n <= len s -> len (firstn (Z.to_nat n) s) = n.
Proof.
  unfold len. intros H0 H. rewrite length_firstn. lia.
Qed.

Lemma varchar_Some (n : Z) (s s' : str) :
  0 <= n -> varchar n s = Some s' ->
  len s' <= n /\ (len s <= n -> s' = s) /\ (n < len s -> len s' = n).
Proof.
  unfold varchar. intros H0 H. destruct (len s <=? n) eqn:E.
  - injection H as <-. apply Z.leb_le in E. repeat split; auto; lia.
  - apply Z.leb_gt in E.
    destruct (forallb _ _); [injection H as <- | discriminate].
    rewrite len_firstn by lia. repeat split; try lia.
Qed.

Lemma varchar_idem (n : Z) (s s' : str) :
  0 <= n -> varchar n s = Some s' -> varchar n s' = Some s'.
Proof.
  intros H0 H. apply varchar_Some in H; [|exact H0].
  apply varchar_corto. tauto.
Qed.

Lemma varchar_no_vacia (n : Z) (s s' : str) :
  1 <= n -> varchar n s = Some s' -> no_vacia s = true -> no_vacia s' = true.
Proof.
  unfold no_vacia. intros H1 H Hs. apply Z.leb_le in Hs. apply Z.leb_le.
  apply varchar_Some in H; [|lia]. destruct H as (_ & Hle & Hgt).
  destruct (Z_le_gt_dec (len s) n) as [L|G].
  - rewrite (Hle L). exact Hs.
  - rewrite Hgt; lia.
Qed.

Lemma varchar_nullable_idem (n : Z) (v v' : option str) :
  0 <= n -> varchar_nullable n v = Some v' -> varchar_nullable n v' = Some v'.
Proof.
  intros H0. destruct v as [s|]; simpl; intros H.
  - abrir. subst v'. simpl. rewrite (varchar_idem n s a H0 E). reflexivity.
  - injection H as <-. reflexivity.
Qed.

Lemma sin_nul_firstn (k : nat) (s : str) :
  sin_nul s = true -> sin_nul (firstn k s) = true.
Proof.
  unfold sin_nul. revert k. induction s as [|c s IH]; intros [|k] H;
    simpl in *; try reflexivity.
  apply andb_true_iff in H. destruct H as [Hc Hs].
  rewrite Hc. simpl. apply IH. exact Hs.
Qed.

Lemma sin_nul_varchar (n : Z) (s s' : str) :
  sin_nul s = true -> varchar n s = Some s' -> sin_nul s' = true.
Proof.
  unfold varchar. intros N H. destruct (len s <=? n).
  - injection H as <-. exact N.
  - destruct (forallb _ _); [injection H as <- | discriminate].
    apply sin_nul_firstn. exact N.
Qed.

Lemma columna_str_idem (n : Z) (s s' : str) :
  0 <= n -> columna_str n s = Some s' -> columna_str n s' = Some s'.
Proof.
  intros H0 H. apply columna_str_Some in H. destruct H as [N V].
  unfold columna_str. rewrite (sin_nul_varchar n s s' N V).
  exact (varchar_idem n s s' H0 V).
Qed.

Lemma columna_str_nullable_idem (n : Z) (v v' : option str) :
  0 <= n -> columna_str_nullable n v = Some v' ->
  columna_str_nullable n v' = Some v'.
Proof.
  intros H0. destruct v as [s|]; simpl; intros H.
  - abrir. subst v'. simpl. rewrite (columna_str_idem n s a H0 E). reflexivity.
  - injection H as <-. reflexivity.
Qed.

Lemma columna_int_idem (n n' : Z) :
  columna_int n = Some n' -> columna_int n' = Some n'.
Proof.
  intros H. apply columna_int_Some in H. destruct H as [-> R].
  apply columna_int_ok. exact R.
Qed.

(** What a flush has written is written back as it is. *)
Lemma fila_idem (p f : Producto) : fila p = Some f -> fila f = Some f.
Proof.
  intros H. unfold fila in H. abrir. subst f. unfold fila. simpl.
  rewrite (columna_str_idem 100 a a0) by (lia || assumption). simpl.
  rewrite (columna_str_idem 350 a1 a2) by (lia || assumption). simpl.
  rewrite (columna_int_idem a4 a5) by assumption. simpl.
  rewrite (columna_str_nullable_idem 50 _ a6) by (lia || eassumption).
  reflexivity.
Qed.

(** A flush keeps the invariants of the instance it writes. *)
Lemma fila_invariantes (p f : Producto) :
  fila p = Some f -> invariantes p = true -> invariantes f = true.
Proof.
  intros H. destruct (fila_Some _ _ H)
    as (_ & (n & n' & Hn & Wn & Hn') & (d & d' & Hd & Wd & Hd') &
        (x & Hx & Hx') & (s & Hs & Hs') & _).
  unfold invariantes, campos_ok.
  rewrite Hn, Hd, Hx, Hs, Hn', Hd', Hx', Hs'. simpl.
  rewrite !andb_true_iff. intros (((In & Id) & Ix) & Is).
  repeat split; try assumption.
  - apply (varchar_no_vacia 100 n n'); (lia || assumption).
  - apply (varchar_no_vacia 350 d d'); (lia || assumption).
Qed.


(** ** The creation: validation, the INSERT, the response *)

Lemma find_app_None (k : Z) (l : list Producto) (f : Producto) :
  find (tiene_id k) l = None -> id f = k ->
  find (tiene_id k) (l ++ [f]) = Some f.
Proof.
  intros H Hf. induction l as [|q l IH]; simpl in *.
  - replace (tiene_id k f) with true; [reflexivity|].
    symmetry. apply tiene_id_spec. exact Hf.
  - destruct (tiene_id k q); [discriminate | auto].
Qed.

Lemma find_app_otro (k k' : Z) (l : list Producto) (f : Producto) :
  id f = k -> k' <> k ->
  find (tiene_id k') (l ++ [f]) = find (tiene_id k') l.
Proof.
  intros Hf Hk. induction l as [|q l IH]; simpl.
  - replace (tiene_id k' f) with false; [reflexivity|].
    symmetry. apply tiene_id_false. lia.
  - destruct (tiene_id k' q); [reflexivity | exact IH].
Qed.

Lemma INSERT_Some (db db' : BaseDatos) (kwargs : list asignacion) (k : Z) :
  INSERT db kwargs = (db', Some k) ->
  k = productos_id_seq db + 1 /\
  productos_id_seq db' = k /\
  db_get db k = None /\
  exists f, fila (nuevo k kwargs) = Some f /\ id f = k /\
    productos db' = productos db ++ [f] /\
    db_get db' k = Some f /\
    (forall k', k' <> k -> db_get db' k' = db_get db k').
Proof.
  unfold INSERT. intros H.
  destruct (fila _) as [a|] eqn:E; [|discriminate].
  destruct (existsb _ _) eqn:Ex; [discriminate|].
  injection H as <- <-. apply db_get_existsb in Ex.
  pose proof (fila_Some _ _ E) as (Hid & _).
  unfold nuevo in Hid. rewrite aplicar_id in Hid. simpl in Hid.
  repeat split; try assumption. exists a.
  repeat split; try assumption.
  - unfold db_get. simpl. apply find_app_None; assumption.
  - intros k' Hk. unfold db_get. simpl.
    apply (find_app_otro (productos_id_seq db + 1)); assumption.
Qed.

(** A refused INSERT writes no row; it leaves the sequence as it was when
    the column types refuse the row, and one further when the primary key
    does. *)
Lemma INSERT_None (db db' : BaseDatos) (kwargs : list asignacion) :
  INSERT db kwargs = (db', None) ->
  (fila (nuevo (productos_id_seq db + 1) kwargs) = None /\ db' = db) \/
  (fila (nuevo (productos_id_seq db + 1) kwargs) <> None /\
   db_get db (productos_id_seq db + 1) <> None /\
   db' = mkBaseDatos (productos db) (productos_id_seq db + 1)).
Proof.
  unfold INSERT. destruct (fila _) as [f|]; simpl.
  - destruct (existsb _ _) eqn:Ex; [|discriminate].
    intros H. injection H as <-. right.
    split; [discriminate|]. split; [|reflexivity].
    intros N. apply db_get_existsb in N. congruence.
  - intros H. injection H as <-. left. auto.
Qed.

(** The instance that the handler builds from a validated body, and the
    row that the flush writes for it. *)
Lemma fila_nuevo (k : Z) (c : ProductoCreate) (f : Producto) :
  longitud_ok 1 100 (c_nombre c) = true ->
  longitud_ok 1 350 (c_descripcion c) = true ->
  fila (nuevo k (model_dump c)) = Some f ->
  exists cat, varchar_nullable 50 (c_categoria c) = Some cat /\
    f = mkProducto k (Some (c_nombre c)) (Some (c_descripcion c))
          (Some (c_precio c)) (Some (c_stock c)) cat.
Proof.
  intros Hn Hd. apply longitud_ok_spec in Hn, Hd.
  unfold fila, nuevo, model_dump. simpl. intros H. abrir. subst f.
  apply columna_str_Some in E, E0. destruct E as [_ E], E0 as [_ E0].
  rewrite varchar_corto in E, E0 by lia. injection E as <-. injection E0 as <-.
  apply columna_int_Some in E1. destruct E1 as [-> _].
  apply columna_str_nullable_Some in E2.
  eexists. split; [exact E2 | reflexivity].
Qed.

(** The row of a body that the column types accept. *)
Lemma fila_nuevo_ok (k : Z) (c : ProductoCreate) :
  longitud_ok 1 100 (c_nombre c) = true ->
  longitud_ok 1 350 (c_descripcion c) = true ->
  sin_nul (c_nombre c) = true -> sin_nul (c_descripcion c) = true ->
  -2147483648 <= c_stock c <= 2147483647 ->
  (forall v, c_categoria c = Some v -> sin_nul v = true /\ len v <= 50) ->
  fila (nuevo k (model_dump c)) =
  Some (mkProducto k (Some (c_nombre c)) (Some (c_descripcion c))
          (Some (c_precio c)) (Some (c_stock c)) (c_categoria c)).
Proof.
  intros Hn Hd Nn Nd Rs Hc. apply longitud_ok_spec in Hn, Hd.
  unfold fila, nuevo, model_dump. simpl.
  rewrite !columna_str_corta by (assumption || lia). simpl.
  rewrite (columna_int_ok _ Rs). simpl.
  destruct (c_categoria c) as [v|]; simpl; [|reflexivity].
  destruct (Hc v eq_refl) as [Nv Lv].
  rewrite columna_str_corta by assumption. reflexivity.
Qed.

(** The three ways in which a POST ends. *)
Lemma post_productos_casos (db : BaseDatos) (b : cuerpo) :
  (validar_create b = None /\
   post_productos db b = (db, rechazo (errores_create b))) \/
  (exists c db', validar_create b = Some c /\
     INSERT db (model_dump c) = (db', None) /\
     post_productos db b = (db', error_500)) \/
  (exists c db' cat, validar_create b = Some c /\
     INSERT db (model_dump c) = (db', Some (productos_id_seq db + 1)) /\
     varchar_nullable 50 (c_categoria c) = Some cat /\
     db_get db' (productos_id_seq db + 1) =
       Some (mkProducto (productos_id_seq db + 1) (Some (c_nombre c))
               (Some (c_descripcion c)) (Some (c_precio c))
               (Some (c_stock c)) cat) /\
     ProductoResponse_validate
       (mkProducto (productos_id_seq db + 1) (Some (c_nombre c))
          (Some (c_descripcion c)) (Some (c_precio c))
          (Some (c_stock c)) cat) =
       Some (mkProductoResponse (productos_id_seq db + 1) (c_nombre c)
               (c_descripcion c) (c_precio c) (c_stock c) cat) /\
     post_productos db b =
       (db', mkRespuesta 201
               (JSON_producto
                  (mkProductoResponse (productos_id_seq db + 1) (c_nombre c)
                     (c_descripcion c) (c_precio c) (c_stock c) cat)))).
Proof.
  unfold post_productos, crear_producto.
  destruct (validar_create b) as [c|] eqn:V; [right | left; auto].
  pose proof (validar_create_Some _ _ V)
    as (_ & Hn & _ & Hd & _ & Hx & _ & Hs & _).
  destruct (INSERT db (model_dump c)) as [db' [k|]] eqn:EI.
  - right. destruct (INSERT_Some _ _ _ _ EI)
      as (-> & _ & _ & f & Ef & _ & _ & Hg & _).
    destruct (fila_nuevo _ _ _ Hn Hd Ef) as (a & E & ->).
    exists c, db', a. unfold refresh. rewrite Hg.
    assert (R : ProductoResponse_validate
                  (mkProducto (productos_id_seq db + 1) (Some (c_nombre c))
                     (Some (c_descripcion c)) (Some (c_precio c))
                     (Some (c_stock c)) a) =
                Some (mkProductoResponse (productos_id_seq db + 1) (c_nombre c)
                        (c_descripcion c) (c_precio c) (c_stock c) a)).
    { unfold ProductoResponse_validate. simpl.
      rewrite !comprobar_ok by assumption. reflexivity. }
    repeat split; try assumption; try reflexivity.
    unfold responder, un_producto. rewrite R. reflexivity.
  - left. exists c, db'. auto.
Qed.

(** ** C3: reading a product right after its creation *)

(** C3. When a POST is answered 201 with a product, a GET on the id of
    that product, served on the database as the POST left it, is answered
    200 with the same product: the same id, name, description, price, stock
    and category; the GET leaves the database as it is. *)
Theorem C3_get_tras_crear (db db' : BaseDatos) (b : cuerpo)
    (r : ProductoResponse) :
  post_productos db b = (db', mkRespuesta 201 (JSON_producto r)) ->
  get_producto db' (r_id r) = (db', mkRespuesta 200 (JSON_producto r)).
Proof.
  intros H.
  destruct (post_productos_casos db b)
    as [(_ & E) | [(c & db0 & _ & _ & E) |
                   (c & db1 & cat & _ & _ & _ & Hg & R & E)]];
    rewrite E in H; try discriminate;
      try (no_es_rechazo H).
  injection H as -> <-. simpl r_id.
  unfold get_producto, obtener_producto. rewrite Hg.
  unfold responder, un_producto. rewrite R. reflexivity.
Qed.

Lemma C3_witness :
  get_producto bd_monitor 1 =
  (bd_monitor, mkRespuesta 200 (JSON_producto monitor_creado)).
Proof.
  apply (C3_get_tras_crear bd_vacia bd_monitor monitor monitor_creado).
  vm_compute. reflexivity.
Defined.

(** ** What every request preserves *)

Lemma cumple_tras {T : Type} (ok : T -> bool) (e : entrada T)
    (previo : option T) (n : T) :
  (forall v, e = Valor v -> ok v = true) -> cumple ok previo = true ->
  tras (campo_de e) previo = Some n -> ok n = true.
Proof.
  intros Hv Hp. destruct e as [| |v]; simpl.
  - intros E. rewrite E in Hp. exact Hp.
  - discriminate.
  - intros E. injection E as <-. apply Hv. reflexivity.
Qed.

(** The instance that the update handler flushes satisfies the constraints
    that the stored product satisfied, when the flush accepts it. *)
Lemma aplicar_campos_ok (okn okd : str -> bool) (b : cuerpo)
    (u : ProductoUpdate) (p f : Producto) :
  (forall v, longitud_ok 1 100 v = true -> okn v = true) ->
  (forall v, longitud_ok 1 350 v = true -> okd v = true) ->
  validar_update b = Some u -> campos_ok okn okd p = true ->
  fila (aplicar (model_dump_exclude_unset u) p) = Some f ->
  campos_ok okn okd (aplicar (model_dump_exclude_unset u) p) = true.
Proof.
  intros Hokn Hokd Hu Hp Ef.
  apply validar_update_Some in Hu. destruct Hu as (-> & Vn & Vd & Vx & Vs).
  rewrite aplicar_dump in *. simpl in *.
  destruct (fila_Some _ _ Ef)
    as (_ & (n & _ & Hn & _) & (d & _ & Hd & _) & (x & Hx & _) &
        (s & Hs & _) & _).
  simpl in Hn, Hd, Hx, Hs.
  unfold campos_ok in *. simpl. rewrite !andb_true_iff in Hp.
  destruct Hp as (((Pn & Pd) & Px) & Ps).
  rewrite Hn, Hd, Hx, Hs. simpl.
  rewrite (cumple_tras okn (b_nombre b) (nombre p) n); auto.
  rewrite (cumple_tras okd (b_descripcion b) (descripcion p) d); auto.
  rewrite (cumple_tras gt0 (b_precio b) (precio p) x); auto.
  rewrite (cumple_tras ge0 (b_stock b) (stock p) s); auto.
Qed.

Lemma UPDATE_productos (db db' : BaseDatos) (p1 : Producto) :
  UPDATE db p1 = Some db' ->
  exists f, fila p1 = Some f /\
    productos db' =
      map (fun q => if tiene_id (id p1) q then f else q) (productos db).
Proof.
  unfold UPDATE. intros H. abrir. subst db'. exists a. auto.
Qed.

Lemma longitud_no_vacia (hi : Z) (v : str) :
  longitud_ok 1 hi v = true -> no_vacia v = true.
Proof.
  intros H. apply longitud_ok_spec in H. apply Z.leb_le. lia.
Qed.

(** What a PUT leaves in the table: the rows it had, or the rows it had
    with the one under [k] replaced by a row [f] that was flushed from the
    patched instance. *)
Lemma put_producto_productos (db : BaseDatos) (k : Z) (b : cuerpo) :
  fst (put_producto db k b) = db \/
  exists p u f, db_get db k = Some p /\ validar_update b = Some u /\
    fila (aplicar (model_dump_exclude_unset u) p) = Some f /\
    productos_id_seq (fst (put_producto db k b)) = productos_id_seq db /\
    productos (fst (put_producto db k b)) =
      map (fun q => if tiene_id k q then f else q) (productos db).
Proof.
  destruct (db_get db k) as [p|] eqn:H.
  - destruct (put_producto_casos db k b p H)
      as [(_ & ->) | [(u & _ & _ & ->) |
                      (u & f & db' & Hu & Ef & EU & _ & ->)]]; auto.
    right. exists p, u, f. simpl fst.
    destruct (UPDATE_Some _ _ _ EU) as (_ & _ & _ & _ & _ & Hs).
    destruct (UPDATE_productos _ _ _ EU) as (f' & Ef' & Hp).
    rewrite aplicar_id in Hp. apply db_get_Some in H. destruct H as [_ Hid].
    rewrite Hid in Hp. assert (f' = f) as -> by congruence. auto.
  - left. unfold put_producto, actualizar_producto.
    destruct (validar_update b); [rewrite H|]; reflexivity.
Qed.

Lemma put_conserva_campos_ok (okn okd : str -> bool) (db : BaseDatos)
    (k : Z) (b : cuerpo) :
  (forall v, longitud_ok 1 100 v = true -> okn v = true) ->
  (forall v, longitud_ok 1 350 v = true -> okd v = true) ->
  (forall p f, fila p = Some f -> campos_ok okn okd p = true ->
               campos_ok okn okd f = true) ->
  Forall (fun q => campos_ok okn okd q = true) (productos db) ->
  Forall (fun q => campos_ok okn okd q = true)
         (productos (fst (put_producto db k b))).
Proof.
  intros Hokn Hokd Hfila Hdb.
  destruct (put_producto_productos db k b)
    as [-> | (p & u & f & Hg & Hu & Ef & _ & ->)]; [exact Hdb|].
  apply Forall_map. rewrite Forall_forall in *. intros q Hq.
  destruct (tiene_id k q); [|auto].
  apply (Hfila _ _ Ef).
  apply (aplicar_campos_ok okn okd b u p f); auto.
  apply Hdb. apply (db_get_Some _ _ _ Hg).
Qed.

Lemma post_productos_productos (db : BaseDatos) (b : cuerpo) :
  fst (post_productos db b) = db \/
  (db_get db (productos_id_seq db + 1) <> None /\
   fst (post_productos db b) =
     mkBaseDatos (productos db) (productos_id_seq db + 1)) \/
  exists f, id f = productos_id_seq db + 1 /\ fila f = Some f /\
    respuesta_ok f = true /\ db_get db (id f) = None /\
    productos_id_seq (fst (post_productos db b)) = productos_id_seq db + 1 /\
    productos (fst (post_productos db b)) = productos db ++ [f].
Proof.
  destruct (post_productos_casos db b)
    as [(_ & ->) | [(c & db0 & _ & N & ->) |
                    (c & db' & cat & _ & EI & _ & Hg & R & ->)]]; auto.
  - simpl fst. apply INSERT_None in N.
    destruct N as [(_ & ->) | (_ & G & ->)]; auto.
  - right. right. simpl fst.
    destruct (INSERT_Some _ _ _ _ EI)
      as (_ & Hs & Hn & f & Ef & Hid & Hp & Hg' & _).
    exists f. rewrite Hid. repeat split; try assumption.
    + exact (fila_idem _ _ Ef).
    + rewrite Hg in Hg'. injection Hg' as <-.
      apply validate_Some in R. tauto.
Qed.

(** On a table whose ids the sequence has handed out, the next value of the
    sequence is the id of no row. *)
Lemma bd_ok_siguiente_libre (db : BaseDatos) :
  bd_ok db -> db_get db (productos_id_seq db + 1) = None.
Proof.
  intros [_ Hi _ _]. apply db_get_None. intros q Hq E.
  rewrite Forall_forall in Hi. specialize (Hi (id q) (in_map id _ _ Hq)). lia.
Qed.


Lemma delete_producto_productos (db : BaseDatos) (k : Z) :
  productos_id_seq (fst (delete_producto db k)) = productos_id_seq db /\
  productos (fst (delete_producto db k)) =
    filter (fun q => negb (tiene_id k q)) (productos db).
Proof.
  destruct (eliminar_refina_deleteById db k) as [-> _]. auto.
Qed.

Lemma invariantes_spec (p : Producto) : invariantes p = true <-> producto_ok p.
Proof.
  unfold invariantes, campos_ok, producto_ok. rewrite !andb_true_iff.
  rewrite !cumple_Some. unfold no_vacia, gt0, ge0. split.
  - intros ((((n & Hn & Ln) & (d & Hd & Ld)) & (x & Hx & Lx)) & (s & Hs & Ls)).
    apply Z.leb_le in Ln, Ld, Ls. exists n, d, x, s. auto 10.
  - intros (n & d & x & s & Hn & Ln & Hd & Ld & Hx & Lx & Hs & Ls).
    apply Z.leb_le in Ln, Ld, Ls. repeat split; eauto.
Qed.

Lemma map_id_reemplazo (k : Z) (f : Producto) (l : list Producto) :
  id f = k ->
  map id (map (fun q => if tiene_id k q then f else q) l) = map id l.
Proof.
  intros Hf. rewrite map_map. apply map_ext. intros q.
  destruct (tiene_id k q) eqn:E; [|reflexivity].
  apply tiene_id_spec in E. congruence.
Qed.

Lemma put_fila_id (db : BaseDatos) (k : Z) (u : ProductoUpdate)
    (p f : Producto) :
  db_get db k = Some p ->
  fila (aplicar (model_dump_exclude_unset u) p) = Some f -> id f = k.
Proof.
  intros H Ef. apply fila_Some in Ef. destruct Ef as (-> & _).
  rewrite aplicar_id. apply (db_get_Some _ _ _ H).
Qed.



Lemma bd_vacia_ok : bd_ok bd_vacia.
Proof. split; simpl; try constructor; lia. Qed.





Lemma ejecutar_cons (db : BaseDatos) (r : peticion) (l : list peticion) :
  ejecutar db (r :: l) =
  (fst (ejecutar (fst (atender db r)) l),
   snd (atender db r) :: snd (ejecutar (fst (atender db r)) l)).
Proof.
  simpl. destruct (atender db r) as [db1 x]. simpl.
  destruct (ejecutar db1 l). reflexivity.
Qed.



(** ** C9: the invariants of the stored products *)

Lemma post_conserva_invariantes (db : BaseDatos) (b : cuerpo) :
  Forall (fun q => invariantes q = true) (productos db) ->
  Forall (fun q => invariantes q = true) (productos (fst (post_productos db b))).
Proof.
  intros H.
  destruct (post_productos_productos db b)
    as [-> | [(_ & ->) | (f & _ & _ & Rf & _ & _ & ->)]];
    [exact H | exact H |].
  apply Forall_app. split; [exact H|].
  constructor; [|constructor]. apply respuesta_ok_invariantes, Rf.
Qed.

Lemma put_conserva_invariantes (db : BaseDatos) (k : Z) (b : cuerpo) :
  Forall (fun q => invariantes q = true) (productos db) ->
  Forall (fun q => invariantes q = true) (productos (fst (put_producto db k b))).
Proof.
  apply (put_conserva_campos_ok no_vacia no_vacia).
  - apply longitud_no_vacia.
  - apply longitud_no_vacia.
  - apply fila_invariantes.
Qed.

Lemma atender_conserva_invariantes (db : BaseDatos) (r : peticion) :
  Forall (fun q => invariantes q = true) (productos db) ->
  Forall (fun q => invariantes q = true) (productos (fst (atender db r))).
Proof.
  intros H. destruct r as [b| |k|k b|k]; simpl.
  - apply post_conserva_invariantes, H.
  - exact H.
  - unfold get_producto, obtener_producto. destruct (db_get db k); exact H.
  - apply put_conserva_invariantes, H.
  - destruct (delete_producto_productos db k) as [_ ->].
    rewrite Forall_forall in *. intros q Hq. apply H.
    apply filter_In in Hq. tauto.
Qed.

Lemma ejecutar_conserva_invariantes (l : list peticion) (db : BaseDatos) :
  Forall (fun q => invariantes q = true) (productos db) ->
  Forall (fun q => invariantes q = true) (productos (fst (ejecutar db l))).
Proof.
  revert db. induction l as [|r l IH]; intros db H; [exact H|].
  rewrite ejecutar_cons. simpl. apply IH, atender_conserva_invariantes, H.
Qed.

Lemma Forall_producto_ok (l : list Producto) :
  Forall producto_ok l <-> Forall (fun q => invariantes q = true) l.
Proof.
  rewrite !Forall_forall. split; intros H q Hq; apply invariantes_spec; auto.
Qed.

(** C9. If every stored product has a price greater than 0, a stock of at
    least 0, and a name and a description that are neither [None] nor
    empty, then the same holds of every stored product after a POST, after
    a PUT, and after any sequence of requests, whatever their bodies and
    however they are answered. *)
Theorem C9_invariantes_conservados (db : BaseDatos) :
  Forall producto_ok (productos db) ->
  (forall b, Forall producto_ok (productos (fst (post_productos db b)))) /\
  (forall k b, Forall producto_ok (productos (fst (put_producto db k b)))) /\
  (forall l, Forall producto_ok (productos (fst (ejecutar db l)))).
Proof.
  intros H. apply Forall_producto_ok in H. repeat split; intros.
  - apply Forall_producto_ok, post_conserva_invariantes, H.
  - apply Forall_producto_ok, put_conserva_invariantes, H.
  - apply Forall_producto_ok, ejecutar_conserva_invariantes, H.
Qed.

Lemma C9_witness :
  (forall b, Forall producto_ok (productos (fst (post_productos bd_monitor b)))) /\
  (forall k b,
     Forall producto_ok (productos (fst (put_producto bd_monitor k b)))) /\
  (forall l, Forall producto_ok (productos (fst (ejecutar bd_monitor l)))).
Proof.
  apply (C9_invariantes_conservados bd_monitor).
  constructor; [|constructor].
  exists (texto "Monitor"), (texto "4K display"), 0x1.8ffd70a3d70a4p+8%float, 75.
  repeat split; try reflexivity; vm_compute; discriminate.
Defined.

(** What happens to a PUT that sets the name to [null]: the flush refuses
    the instance, the request is answered 500 and the row stays. *)
Lemma put_nombre_nulo_500 (db : BaseDatos) (k : Z) (p : Producto) :
  db_get db k = Some p ->
  put_producto db k nombre_nulo = (db, error_500).
Proof.
  intros H.
  destruct (put_producto_casos db k nombre_nulo p H)
    as [(N & _) | [(u & _ & _ & E) | (u & f & db' & Hu & Ef & _)]].
  - discriminate.
  - exact E.
  - injection Hu as <-. destruct p as [i n d x s c]. discriminate.
Qed.

(** ** C5: the listing *)

Lemma insertar_por_id_perm (p : Producto) (l : list Producto) :
  Permutation (insertar_por_id p l) (p :: l).
Proof.
  induction l as [|q l IH]; simpl; [apply Permutation_refl|].
  destruct (id p <=? id q); [apply Permutation_refl|].
  apply perm_trans with (q :: p :: l);
    [apply perm_skip, IH | apply perm_swap].
Qed.

Lemma order_by_id_perm (l : list Producto) : Permutation (order_by_id l) l.
Proof.
  induction l as [|p l IH]; simpl; [apply perm_nil|].
  apply perm_trans with (p :: order_by_id l);
    [apply insertar_por_id_perm | apply perm_skip, IH].
Qed.

Lemma insertar_por_id_sorted (p : Producto) (l : list Producto) :
  StronglySorted por_id l -> StronglySorted por_id (insertar_por_id p l).
Proof.
  induction l as [|q l IH]; simpl; intros H.
  - constructor; constructor.
  - inversion H as [|? ? Hl Hq]; subst.
    destruct (id p <=? id q) eqn:E.
    + apply Z.leb_le in E. constructor; [exact H|].
      constructor; [exact E|].
      apply (Forall_impl _ (P := por_id q)); [|exact Hq].
      unfold por_id. intros; lia.
    + apply Z.leb_gt in E. constructor; [apply IH, Hl|].
      apply (Permutation_Forall (x := p :: l)).
      * apply Permutation_sym, insertar_por_id_perm.
      * constructor; [unfold por_id; lia | exact Hq].
Qed.

Lemma order_by_id_sorted (l : list Producto) :
  StronglySorted por_id (order_by_id l).
Proof.
  induction l as [|p l IH]; simpl; [constructor|].
  apply insertar_por_id_sorted, IH.
Qed.



(** The responses of a request that is not a POST carry no created id. *)
Lemma put_no_crea (db : BaseDatos) (k : Z) (b : cuerpo) :
  id_creado (snd (put_producto db k b)) = [].
Proof.
  unfold put_producto, actualizar_producto, refresh.
  destruct (validar_update b); [|apply rechazo_no_crea].
  destruct (db_get db k); [|reflexivity].
  destruct (UPDATE _ _); [|reflexivity].
  destruct (db_get _ _); [|reflexivity].
  simpl. destruct (un_producto _); reflexivity.
Qed.

Lemma get_no_crea (db : BaseDatos) (k : Z) :
  fst (get_producto db k) = db /\ id_creado (snd (get_producto db k)) = [].
Proof.
  unfold get_producto, obtener_producto.
  destruct (db_get db k); [|split; reflexivity].
  simpl. destruct (un_producto _); split; reflexivity.
Qed.

Lemma get_productos_no_crea (db : BaseDatos) :
  fst (get_productos db) = db /\ id_creado (snd (get_productos db)) = [].
Proof.
  unfold get_productos, obtener_productos. simpl.
  destruct (una_lista _); split; reflexivity.
Qed.

Lemma delete_no_crea (db : BaseDatos) (k : Z) :
  id_creado (snd (delete_producto db k)) = [].
Proof.
  unfold delete_producto, eliminar_producto.
  destruct (db_get db k); reflexivity.
Qed.

(** A POST either creates no row, or creates one row under the next value
    of the sequence and answers with that id.  A POST that creates no row
    leaves the sequence where it was, or one further when the primary key
    has refused the row. *)
Lemma post_crea (db : BaseDatos) (b : cuerpo) :
  (productos (fst (post_productos db b)) = productos db /\
   productos_id_seq db <= productos_id_seq (fst (post_productos db b))
     <= productos_id_seq db + 1 /\
   (db_get db (productos_id_seq db + 1) = None ->
    fst (post_productos db b) = db) /\
   id_creado (snd (post_productos db b)) = []) \/
  (exists f, productos (fst (post_productos db b)) = productos db ++ [f] /\
     productos_id_seq (fst (post_productos db b)) = productos_id_seq db + 1 /\
     id_creado (snd (post_productos db b)) = [productos_id_seq db + 1] /\
     id f = productos_id_seq db + 1).
Proof.
  destruct (post_productos_casos db b)
    as [(_ & E) | [(c & db0 & _ & N & E) |
                   (c & db' & cat & _ & EI & _ & _ & _ & E)]].
  - left. rewrite E. cbn [fst snd].
    split; [reflexivity|]. split; [lia|]. split; [reflexivity|].
    apply rechazo_no_crea.
  - left. rewrite E. cbn [fst snd]. apply INSERT_None in N.
    destruct N as [(_ & ->) | (_ & G & ->)]; simpl.
    + split; [reflexivity|]. split; [lia|]. auto.
    + split; [reflexivity|]. split; [lia|]. split; [|reflexivity].
      intros G'. contradiction.
  - right. rewrite E in *. simpl fst in *. simpl snd.
    destruct (INSERT_Some _ _ _ _ EI) as (_ & Hs & _ & f & _ & Hi & Hp & _).
    exists f. auto.
Qed.





(** ** The ids that creations return *)

Lemma atender_ids (db : BaseDatos) (r : peticion) :
  productos_id_seq db <= productos_id_seq (fst (atender db r)) /\
  (id_creado (snd (atender db r)) = [] \/
   (id_creado (snd (atender db r)) = [productos_id_seq db + 1] /\
    productos_id_seq (fst (atender db r)) = productos_id_seq db + 1)).
Proof.
  destruct r as [b| |k|k b|k]; cbn [atender].
  - destruct (post_crea db b) as [(_ & S & _ & ->) | (f & _ & -> & -> & _)].
    + split; [lia | auto].
    + split; [lia | auto].
  - destruct (get_productos_no_crea db) as [-> ->]. split; [lia | auto].
  - destruct (get_no_crea db k) as [-> ->]. split; [lia | auto].
  - rewrite put_no_crea. split; [|auto].
    destruct (put_producto_productos db k b)
      as [-> | (p & u & f & _ & _ & _ & -> & _)]; lia.
  - rewrite delete_no_crea. split; [|auto].
    destruct (delete_producto_productos db k) as [-> _]. lia.
Qed.

(** In a run, the ids of the created products are values that the sequence
    hands out during the run, each greater than the ones before it. *)
Lemma ejecutar_ids (l : list peticion) (db : BaseDatos) :
  productos_id_seq db <= productos_id_seq (fst (ejecutar db l)) /\
  Forall (fun i => productos_id_seq db < i <=
                   productos_id_seq (fst (ejecutar db l)))
         (ids_creados (snd (ejecutar db l))) /\
  StronglySorted Z.lt (ids_creados (snd (ejecutar db l))).
Proof.
  revert db. induction l as [|r l IH]; intros db.
  - simpl. repeat split; try constructor. lia.
  - rewrite ejecutar_cons. simpl fst. simpl snd.
    destruct (atender_ids db r) as [S1 C1].
    destruct (IH (fst (atender db r))) as (S2 & F2 & O2).
    unfold ids_creados in *. simpl flat_map.
    assert (F2' : Forall (fun i => productos_id_seq db < i <=
                    productos_id_seq (fst (ejecutar (fst (atender db r)) l)))
                    (flat_map id_creado
                       (snd (ejecutar (fst (atender db r)) l)))).
    { apply (Forall_impl _ (P := fun i =>
                productos_id_seq (fst (atender db r)) < i <=
                productos_id_seq (fst (ejecutar (fst (atender db r)) l))));
        [|exact F2].
      intros; lia. }
    destruct C1 as [-> | [-> E1]]; simpl.
    + split; [lia|]. split; assumption.
    + split; [lia|]. split.
      * constructor; [lia | exact F2'].
      * constructor; [exact O2|].
        apply (Forall_impl _ (P := fun i =>
                  productos_id_seq (fst (atender db r)) < i <=
                  productos_id_seq (fst (ejecutar (fst (atender db r)) l))));
          [|exact F2].
        intros; lia.
Qed.

(** ** C8: the id of a product *)

Lemma validar_create_con_id (i : entrada Z) (b : cuerpo) :
  validar_create (con_id i b) = validar_create b.
Proof. reflexivity. Qed.

Lemma rechazo_create_con_id (i : entrada Z) (b : cuerpo) :
  rechazo (errores_create (con_id i b)) = rechazo (errores_create b).
Proof.
  assert (F : forallb eco_json (errores_create (con_id i b)) =
              forallb eco_json (errores_create b)).
  { unfold errores_create, error_requerido.
    destruct b as [bi bn bd bx bs bc]. unfold con_id.
    cbn [b_nombre b_descripcion b_precio b_stock b_categoria].
    destruct bn as [| |vn], bd as [| |vd], bx as [| |vx], bs as [| |vs];
      repeat match goal with
      | |- context [if ?g then _ else _] => destruct g
      end; reflexivity. }
  unfold rechazo. rewrite F. reflexivity.
Qed.

Lemma validar_update_con_id (i : entrada Z) (b : cuerpo) :
  validar_update (con_id i b) = validar_update b.
Proof. reflexivity. Qed.

Lemma dump_sin_id (u : ProductoUpdate) :
  ~ In "id"%string (map clave (model_dump_exclude_unset u)).
Proof.
  destruct u as [[|vn] [|vd] [|vx] [|vs] [|vc]]; simpl;
    intuition discriminate.
Qed.

Lemma put_producto_ids (db : BaseDatos) (k : Z) (b : cuerpo) :
  map id (productos (fst (put_producto db k b))) = map id (productos db).
Proof.
  destruct (put_producto_productos db k b)
    as [-> | (p & u & f & Hg & _ & Ef & _ & ->)]; [reflexivity|].
  apply map_id_reemplazo. exact (put_fila_id _ _ _ _ _ Hg Ef).
Qed.

Lemma map_id_filter (k : Z) (l : list Producto) :
  map id (filter (fun q => negb (tiene_id k q)) l) =
  filter (fun i => negb (i =? k)) (map id l).
Proof.
  induction l as [|q l IH]; simpl; [reflexivity|].
  unfold tiene_id at 1. destruct (id q =? k); simpl; rewrite IH; reflexivity.
Qed.

(** C8. The id of a product is the value that the sequence of the table
    hands out when the product is created, and no request changes it.  A
    POST ignores an [id] key in its body and answers with the next value of
    the sequence.  The items that an update sets never have the key [id],
    setting them leaves the id of the instance alone, a PUT ignores an [id]
    key in its body, leaves the id column of the table as it was and
    answers with the id of its path.  Over the whole API: a request leaves
    the id column as it was, but for a POST, which appends the id it
    returns, and a DELETE, which removes the id of its path. *)
Theorem C8_id_asignado_una_vez :
  (forall db b i, post_productos db (con_id i b) = post_productos db b) /\
  (forall db b db' r,
     post_productos db b = (db', mkRespuesta 201 (JSON_producto r)) ->
     r_id r = productos_id_seq db + 1) /\
  (forall u, ~ In "id"%string (map clave (model_dump_exclude_unset u))) /\
  (forall l p, id (aplicar l p) = id p) /\
  (forall db k b i, put_producto db k (con_id i b) = put_producto db k b) /\
  (forall db k b,
     map id (productos (fst (put_producto db k b))) = map id (productos db)) /\
  (forall db k b r,
     snd (put_producto db k b) = mkRespuesta 200 (JSON_producto r) ->
     r_id r = k) /\
  (forall db r,
     map id (productos (fst (atender db r))) =
     match r with
     | POST_productos _ =>
         map id (productos db) ++ id_creado (snd (atender db r))
     | DELETE_producto k => filter (fun i => negb (i =? k)) (map id (productos db))
     | _ => map id (productos db)
     end).
Proof.
  split; [|split; [|split; [|split; [|split; [|split; [|split]]]]]].
  - intros db b i. unfold post_productos.
    rewrite validar_create_con_id, rechazo_create_con_id. reflexivity.
  - intros db b db' r H.
    destruct (post_productos_casos db b)
      as [(_ & E) | [(c & db0 & _ & _ & E) |
                     (c & db1 & cat & _ & _ & _ & _ & _ & E)]];
      rewrite E in H; try discriminate;
      try (no_es_rechazo H).
    injection H as _ <-. reflexivity.
  - apply dump_sin_id.
  - apply aplicar_id.
  - intros db k b i. unfold put_producto.
    rewrite validar_update_con_id. reflexivity.
  - apply put_producto_ids.
  - intros db k b r H.
    destruct (db_get db k) as [p|] eqn:G.
    + destruct (put_producto_casos db k b p G)
        as [(_ & E) | [(u & _ & _ & E) | (u & f & db' & _ & Ef & _ & _ & E)]];
        rewrite E in H; try discriminate;
      try (no_es_rechazo H).
      simpl in H. unfold un_producto in H.
      destruct (ProductoResponse_validate f) as [r'|] eqn:V; [|discriminate].
      simpl in H. injection H as <-.
      apply validate_Some in V. destruct V as (-> & _).
      exact (put_fila_id _ _ _ _ _ G Ef).
    + unfold put_producto, actualizar_producto in H.
      destruct (validar_update b); [rewrite G in H; discriminate|].
      no_es_rechazo H.
  - intros db r. destruct r as [b| |k|k b|k]; cbn [atender].
    + destruct (post_crea db b) as [(-> & _ & _ & ->) | (f & -> & _ & -> & Hi)].
      * rewrite app_nil_r. reflexivity.
      * rewrite map_app. simpl. rewrite Hi. reflexivity.
    + destruct (get_productos_no_crea db) as [-> _]. reflexivity.
    + destruct (get_no_crea db k) as [-> _]. reflexivity.
    + apply put_producto_ids.
    + destruct (delete_producto_productos db k) as [_ ->].
      apply map_id_filter.
Qed.

(** ** C10: an update whose body sets a required field to [null] *)

Lemma put_no_422 (db : BaseDatos) (k : Z) (b : cuerpo) :
  validar_update b <> None -> status_code (snd (put_producto db k b)) <> 422.
Proof.
  unfold put_producto, actualizar_producto, refresh. intros H.
  destruct (validar_update b); [|congruence].
  destruct (db_get db k); [|simpl; lia].
  destruct (UPDATE _ _); [|simpl; lia].
  destruct (db_get _ _); [|simpl; lia].
  simpl. destruct (un_producto _); simpl; lia.
Qed.

(** The flush of an instance that holds [None] in a column declared
    [nullable=False] is refused. *)
Lemma UPDATE_rechaza_None (db : BaseDatos) (p : Producto) :
  nombre p = None \/ descripcion p = None \/ precio p = None \/
  stock p = None ->
  UPDATE db p = None.
Proof.
  intros N. unfold UPDATE. destruct (fila p) as [f|] eqn:Ef; [|reflexivity].
  exfalso. destruct (fila_Some _ _ Ef)
    as (_ & (n & _ & Hn & _) & (d & _ & Hd & _) & (x & Hx & _) &
        (s & Hs & _) & _).
  destruct N as [N | [N | [N | N]]]; congruence.
Qed.

(** C10 as stated, at [{"nombre": null}] on the monitor: the request is
    answered 500 and the stored product keeps its name; no null is written
    onto it. *)
Lemma C10_contraejemplo :
  validar_update nombre_nulo <> None /\
  put_producto bd_monitor 1 nombre_nulo = (bd_monitor, error_500) /\
  exists p, db_get (fst (put_producto bd_monitor 1 nombre_nulo)) 1 = Some p /\
            nombre p = Some (texto "Monitor") /\ nombre p <> None.
Proof.
  split; [discriminate|]. split; [reflexivity|].
  eexists. split; [reflexivity|]. split; [reflexivity | discriminate].
Qed.

(** C10, amended. The bodies that set only the name, the description, the
    price or the stock to [null] pass the validation of [ProductoUpdate].
    For every body that passes it and sets one of the four to [null], on a
    stored product: the dictionary that the handler dumps keeps the key with
    the value [None], since only unset keys are left out; the loop of
    [setattr] puts [None] on the instance that the handler loaded; the
    commit of that instance is refused by the column, which is declared
    [nullable=False]; the exception escapes the handler, so the request is
    answered 500, not 422; and the stored product keeps the value it had. *)
Theorem C10_null_explicito_500 (db : BaseDatos) (k : Z) (b : cuerpo)
    (p : Producto) :
  db_get db k = Some p -> validar_update b <> None ->
  b_nombre b = Nulo \/ b_descripcion b = Nulo \/ b_precio b = Nulo \/
  b_stock b = Nulo ->
  (validar_update nombre_nulo <> None /\
   validar_update descripcion_nula <> None /\
   validar_update precio_nulo <> None /\
   validar_update stock_nulo <> None) /\
  exists u,
    validar_update b = Some u /\
    (b_nombre b = Nulo ->
     In (set_nombre None) (model_dump_exclude_unset u) /\
     nombre (aplicar (model_dump_exclude_unset u) p) = None) /\
    (b_descripcion b = Nulo ->
     In (set_descripcion None) (model_dump_exclude_unset u) /\
     descripcion (aplicar (model_dump_exclude_unset u) p) = None) /\
    (b_precio b = Nulo ->
     In (set_precio None) (model_dump_exclude_unset u) /\
     precio (aplicar (model_dump_exclude_unset u) p) = None) /\
    (b_stock b = Nulo ->
     In (set_stock None) (model_dump_exclude_unset u) /\
     stock (aplicar (model_dump_exclude_unset u) p) = None) /\
    UPDATE db (aplicar (model_dump_exclude_unset u) p) = None /\
    actualizar_producto db k u = (db, Excepcion) /\
    put_producto db k b = (db, error_500) /\
    status_code (snd (put_producto db k b)) <> 422 /\
    db_get (fst (put_producto db k b)) k = Some p.
Proof.
  intros G V N. split; [repeat split; discriminate|].
  destruct (validar_update b) as [u|] eqn:Hu; [|congruence].
  exists u. split; [reflexivity|].
  pose proof (validar_update_Some _ _ Hu) as (Eu & _).
  assert (A : forall q, aplicar (model_dump_exclude_unset u) q =
                mkProducto (id q) (tras (u_nombre u) (nombre q))
                  (tras (u_descripcion u) (descripcion q))
                  (tras (u_precio u) (precio q)) (tras (u_stock u) (stock q))
                  (tras (u_categoria u) (categoria q)))
    by (intros q; apply aplicar_dump).
  assert (Cn : b_nombre b = Nulo ->
               In (set_nombre None) (model_dump_exclude_unset u) /\
               nombre (aplicar (model_dump_exclude_unset u) p) = None).
  { intros E. rewrite A. subst u. rewrite E.
    unfold model_dump_exclude_unset. simpl. auto. }
  assert (Cd : b_descripcion b = Nulo ->
               In (set_descripcion None) (model_dump_exclude_unset u) /\
               descripcion (aplicar (model_dump_exclude_unset u) p) = None).
  { intros E. rewrite A. subst u. rewrite E.
    unfold model_dump_exclude_unset. simpl. rewrite !in_app_iff. simpl. auto. }
  assert (Cx : b_precio b = Nulo ->
               In (set_precio None) (model_dump_exclude_unset u) /\
               precio (aplicar (model_dump_exclude_unset u) p) = None).
  { intros E. rewrite A. subst u. rewrite E.
    unfold model_dump_exclude_unset. simpl. rewrite !in_app_iff. simpl. auto. }
  assert (Cs : b_stock b = Nulo ->
               In (set_stock None) (model_dump_exclude_unset u) /\
               stock (aplicar (model_dump_exclude_unset u) p) = None).
  { intros E. rewrite A. subst u. rewrite E.
    unfold model_dump_exclude_unset. simpl. rewrite !in_app_iff. simpl.
    auto 10. }
  assert (U : UPDATE db (aplicar (model_dump_exclude_unset u) p) = None).
  { apply UPDATE_rechaza_None.
    destruct N as [N | [N | [N | N]]];
      [left; apply Cn | right; left; apply Cd | right; right; left; apply Cx |
       right; right; right; apply Cs]; exact N. }
  assert (H : actualizar_producto db k u = (db, Excepcion)).
  { unfold actualizar_producto. rewrite G, U. reflexivity. }
  assert (P : put_producto db k b = (db, error_500)).
  { unfold put_producto. rewrite Hu, H. reflexivity. }
  repeat (split; [assumption|]).
  rewrite P. split; [discriminate | exact G].
Qed.

Lemma C10_witness :
  put_producto bd_monitor 1 nombre_nulo = (bd_monitor, error_500).
Proof.
  destruct (C10_null_explicito_500 bd_monitor 1 nombre_nulo
              (mkProducto 1 (Some (texto "Monitor")) (Some (texto "4K display"))
                 (Some 0x1.8ffd70a3d70a4p+8%float) (Some 75)
                 (Some (texto "Electronics"))))
    as (_ & u & _ & _ & _ & _ & _ & _ & _ & P & _).
  - reflexivity.
  - discriminate.
  - left. reflexivity.
  - exact P.
Defined.

(** ** C2: what a creation returns *)

(** C2, at a body that satisfies every constraint of [ProductoCreate] and
    has a category of 51 characters: the body passes validation, the INSERT
    is refused by the column [String(50)], and the request is answered 500
    with no row created, not 201. *)
Theorem C2_categoria_51_no_201 :
  validar_create monitor_categoria_51 <> None /\
  post_productos bd_vacia monitor_categoria_51 = (bd_vacia, error_500) /\
  status_code (snd (post_productos bd_vacia monitor_categoria_51)) <> 201.
Proof.
  split; [discriminate|]. split; [reflexivity | discriminate].
Qed.

(** With a category of 50 letters and a trailing space the request is
    answered 201, with a category that is not the one of the body. *)
Lemma categoria_cortada :
  exists r,
    snd (post_productos bd_vacia monitor_categoria_espacio) =
      mkRespuesta 201 (JSON_producto r) /\
    r_categoria r = Some (repeat 97%N 50) /\
    r_categoria r <> opcional (b_categoria monitor_categoria_espacio).
Proof.
  eexists. split; [reflexivity|]. split; [reflexivity | discriminate].
Qed.

(** A creation that the columns accept.  On a table as the service keeps
    it, a body that satisfies the constraints of [ProductoCreate], whose
    texts have no character U+0000, whose price is finite, whose stock fits
    the INTEGER column and whose category, if it has one, has at most 50
    characters is answered 201 with the fields of the body and with the next
    value of the sequence as id: a positive id that no stored row has.  The
    row is appended to the table. *)
Theorem crear_201 (db : BaseDatos) (b : cuerpo) (c : ProductoCreate) :
  bd_ok db -> validar_create b = Some c ->
  sin_nul (c_nombre c) = true -> sin_nul (c_descripcion c) = true ->
  is_finite (c_precio c) = true -> c_stock c <= 2147483647 ->
  (forall v, c_categoria c = Some v -> sin_nul v = true /\ len v <= 50) ->
  snd (post_productos db b) =
    mkRespuesta 201
      (JSON_producto
         (mkProductoResponse (productos_id_seq db + 1) (c_nombre c)
            (c_descripcion c) (c_precio c) (c_stock c) (c_categoria c))) /\
  0 < productos_id_seq db + 1 /\
  db_get db (productos_id_seq db + 1) = None /\
  productos (fst (post_productos db b)) =
    productos db ++
    [mkProducto (productos_id_seq db + 1) (Some (c_nombre c))
       (Some (c_descripcion c)) (Some (c_precio c)) (Some (c_stock c))
       (c_categoria c)].
Proof.
  intros Hdb V Nn Nd _ Rs Hc.
  pose proof (bd_ok_siguiente_libre db Hdb) as G.
  destruct Hdb as [Hf Hi Hu Hs].
  pose proof (validar_create_Some _ _ V)
    as (_ & Hn & _ & Hd & _ & _ & _ & Hst & _).
  assert (Rs' : -2147483648 <= c_stock c <= 2147483647).
  { unfold ge0 in Hst. apply Z.leb_le in Hst. lia. }
  pose proof (fila_nuevo_ok (productos_id_seq db + 1) c Hn Hd Nn Nd Rs' Hc)
    as F.
  assert (W : varchar_nullable 50 (c_categoria c) = Some (c_categoria c)).
  { apply varchar_nullable_corto. intros v Ev. apply (Hc v Ev). }
  destruct (post_productos_casos db b)
    as [(N & _) | [(c' & db0 & V' & N & _) |
                   (c' & db' & cat & V' & EI & Wc & Hg & _ & E)]].
  - congruence.
  - rewrite V in V'. injection V' as <-. apply INSERT_None in N.
    destruct N as [(N & _) | (_ & N & _)].
    + rewrite F in N. discriminate.
    + contradiction.
  - rewrite V in V'. injection V' as <-.
    rewrite W in Wc. injection Wc as <-. rewrite E. simpl.
    repeat split; try assumption; try lia.
    destruct (INSERT_Some _ _ _ _ EI) as (_ & _ & _ & f & _ & _ & Hp & Hg' & _).
    rewrite Hg in Hg'. injection Hg' as <-. exact Hp.
Qed.

Lemma crear_201_witness :
  snd (post_productos bd_vacia monitor) =
  mkRespuesta 201 (JSON_producto monitor_creado).
Proof.
  refine (proj1 (crear_201 bd_vacia monitor
                   (mkProductoCreate (texto "Monitor") (texto "4K display")
                      0x1.8ffd70a3d70a4p+8%float 75
                      (Some (texto "Electronics"))) bd_vacia_ok eq_refl
                   eq_refl eq_refl eq_refl _ _)).
  - simpl. lia.
  - intros v E. injection E as <-. split; [reflexivity|].
    vm_compute. discriminate.
Defined.

(** The ids that the creations of a run return.  Whatever the requests
    served from the empty database, the ids of the 201 responses are
    positive and strictly increasing in the order of the responses, so no
    id is returned twice. *)
Theorem ids_creados_distintos (l : list peticion) :
  Forall (fun i => 0 < i) (ids_creados (snd (ejecutar bd_vacia l))) /\
  StronglySorted Z.lt (ids_creados (snd (ejecutar bd_vacia l))) /\
  NoDup (ids_creados (snd (ejecutar bd_vacia l))).
Proof.
  destruct (ejecutar_ids l bd_vacia) as (_ & F & O).
  split; [|split; [exact O|]].
  - apply (Forall_impl _ (P := fun i => productos_id_seq bd_vacia < i <=
              productos_id_seq (fst (ejecutar bd_vacia l)))); [|exact F].
    simpl. intros; lia.
  - clear F. induction O as [|i resto _ IH Hi]; constructor; [|exact IH].
    intros Hin. rewrite Forall_forall in Hi. specialize (Hi i Hin). lia.
Qed.

(** * Further properties of the handlers *)

(** ** A PUT served twice *)

Lemma tras_coercion {T : Type} (co : T -> option T) (c : campo T)
    (previo : option T) (n n' : T) :
  (forall a a', co a = Some a' -> co a' = Some a') ->
  tras c previo = Some n -> co n = Some n' ->
  exists m, tras c (Some n') = Some m /\ co m = Some n'.
Proof.
  intros Hidem Ht Hc. destruct c as [|v]; simpl in *.
  - exists n'. split; [reflexivity | exact (Hidem _ _ Hc)].
  - exists n. auto.
Qed.

Lemma tras_igual {T : Type} (c : campo T) (previo : option T) (n : T) :
  tras c previo = Some n -> tras c (Some n) = Some n.
Proof. destruct c; simpl; auto. Qed.

Lemma tras_columna_nullable (n : Z) (c : campo str) (previo cf : option str) :
  0 <= n -> columna_str_nullable n (tras c previo) = Some cf ->
  columna_str_nullable n (tras c cf) = Some cf.
Proof.
  intros H0 H. destruct c as [|v]; simpl in *.
  - exact (columna_str_nullable_idem n _ _ H0 H).
  - exact H.
Qed.

(** The instance that a second, identical update flushes is written as the
    row that the first one wrote. *)
Lemma fila_aplicar_idem (u : ProductoUpdate) (p f : Producto) :
  fila (aplicar (model_dump_exclude_unset u) p) = Some f ->
  fila (aplicar (model_dump_exclude_unset u) f) = Some f.
Proof.
  intros Ef. rewrite aplicar_dump in *.
  destruct (fila_Some_columna _ _ Ef)
    as (Fi & (n & n' & Hn & Wn & Hn') & (d & d' & Hd & Wd & Hd') &
        (x & Hx & Hx') & (s & s' & Hs & Ws & Hs') & Hc).
  simpl in Fi, Hn, Hd, Hx, Hs, Hc.
  destruct (tras_coercion (columna_str 100) (u_nombre u) _ n n'
              (fun a a' => columna_str_idem 100 a a' ltac:(lia)) Hn Wn)
    as (mn & Tn & Cn).
  destruct (tras_coercion (columna_str 350) (u_descripcion u) _ d d'
              (fun a a' => columna_str_idem 350 a a' ltac:(lia)) Hd Wd)
    as (md & Td & Cd).
  pose proof (tras_igual (u_precio u) _ x Hx) as Tx.
  destruct (tras_coercion columna_int (u_stock u) _ s s'
              columna_int_idem Hs Ws)
    as (ms & Ts & Cs).
  pose proof (tras_columna_nullable 50 (u_categoria u) _ _ ltac:(lia) Hc) as Cc.
  unfold fila. simpl.
  rewrite Hn', Hd', Hx', Hs', Tn, Td, Tx, Ts. simpl.
  rewrite Cn. simpl. rewrite Cd. simpl. rewrite Cs. simpl. rewrite Cc. simpl.
  destruct f as [fi fn fd fx fs fc]. simpl in *. congruence.
Qed.

Lemma map_reemplazo_idem (k : Z) (f : Producto) (l : list Producto) :
  id f = k ->
  map (fun q => if tiene_id k q then f else q)
      (map (fun q => if tiene_id k q then f else q) l) =
  map (fun q => if tiene_id k q then f else q) l.
Proof.
  intros Hf. rewrite map_map. apply map_ext. intros q.
  destruct (tiene_id k q) eqn:E.
  - replace (tiene_id k f) with true; [reflexivity|].
    symmetry. apply tiene_id_spec. exact Hf.
  - rewrite E. reflexivity.
Qed.

Lemma BaseDatos_eq (db1 db2 : BaseDatos) :
  productos db1 = productos db2 ->
  productos_id_seq db1 = productos_id_seq db2 -> db1 = db2.
Proof. destruct db1, db2. simpl. intros -> ->. reflexivity. Qed.

(** X2. PUT is idempotent: the same PUT served again, right after the
    first, leaves the database as the first left it and gets the same
    response, whether the first was answered 200, 404, 422 or 500. *)
Theorem put_idempotente (db : BaseDatos) (k : Z) (b : cuerpo) :
  put_producto (fst (put_producto db k b)) k b = put_producto db k b.
Proof.
  destruct (db_get db k) as [p|] eqn:G.
  - destruct (put_producto_casos db k b p G)
      as [(_ & E) | [(u & _ & _ & E) | (u & f & db' & Hu & Ef & EU & Hg & E)]].
    + rewrite E. simpl fst. exact E.
    + rewrite E. simpl fst. exact E.
    + rewrite E. simpl fst.
      pose proof (put_fila_id _ _ _ _ _ G Ef) as Hid.
      pose proof (fila_aplicar_idem u p f Ef) as Ef2.
      destruct (put_producto_casos db' k b f Hg)
        as [(N & _) | [(u' & Hu' & N & _) |
                       (u' & f' & db'' & Hu' & Ef' & EU' & _ & E')]].
      * congruence.
      * rewrite Hu in Hu'. injection Hu' as <-. congruence.
      * rewrite Hu in Hu'. injection Hu' as <-.
        assert (f' = f) as -> by congruence.
        rewrite E'. f_equal. apply BaseDatos_eq.
        -- destruct (UPDATE_productos _ _ _ EU') as (g' & Eg' & ->).
           destruct (UPDATE_productos _ _ _ EU) as (g & Eg & ->).
           assert (g' = f) as -> by congruence.
           assert (g = f) as -> by congruence.
           rewrite !aplicar_id, Hid.
           apply db_get_Some in G. destruct G as [_ ->].
           apply map_reemplazo_idem. exact Hid.
        -- destruct (UPDATE_Some _ _ _ EU') as (_ & _ & _ & _ & _ & ->).
           reflexivity.
  - assert (F : fst (put_producto db k b) = db).
    { destruct (put_producto_productos db k b)
        as [F | (p & _ & _ & G' & _)]; [exact F | congruence]. }
    rewrite F. reflexivity.
Qed.

(** ** Errors leave the database alone *)



(** Where the sequence lags behind the ids of the table, a creation is
    refused by the primary key, answered 500, and the sequence keeps the
    value that was drawn: the error leaves the rows as they were, not the
    database.  The next creation is answered 201 and its product is not the
    last of the listing. *)
Lemma post_clave_repetida :
  post_productos bd_importada monitor =
    (mkBaseDatos (productos bd_importada) 1, error_500) /\
  fst (post_productos bd_importada monitor) <> bd_importada /\
  snd (post_productos (fst (post_productos bd_importada monitor)) teclado) =
    mkRespuesta 201 (JSON_producto teclado_creado) /\
  listado (fst (post_productos (fst (post_productos bd_importada monitor))
                  teclado)) <>
    listado (fst (post_productos bd_importada monitor)) ++ [teclado_creado].
Proof.
  split; [reflexivity|]. split; [discriminate|].
  split; [reflexivity|]. vm_compute. discriminate.
Qed.



(** ** Reading a product right after its update *)

(** X4. When a PUT is answered 200 with a product, a GET on the same id,
    served on the database as the PUT left it, is answered 200 with the
    same product. *)
Theorem get_tras_put (db db' : BaseDatos) (k : Z) (b : cuerpo)
    (r : ProductoResponse) :
  put_producto db k b = (db', mkRespuesta 200 (JSON_producto r)) ->
  get_producto db' k = (db', mkRespuesta 200 (JSON_producto r)).
Proof.
  intros H. destruct (db_get db k) as [p|] eqn:G.
  - destruct (put_producto_casos db k b p G)
      as [(_ & E) | [(u & _ & _ & E) | (u & f & db1 & _ & _ & _ & Hg & E)]];
      rewrite E in H; try discriminate;
      try (no_es_rechazo H).
    injection H as -> H. unfold get_producto, obtener_producto.
    rewrite Hg. f_equal. exact H.
  - unfold put_producto, actualizar_producto in H.
    destruct (validar_update b); [rewrite G in H; discriminate|].
    no_es_rechazo H.
Qed.

Lemma get_tras_put_witness :
  get_producto (fst (put_producto bd_monitor 1 solo_stock_10)) 1 =
  put_producto bd_monitor 1 solo_stock_10.
Proof.
  apply (get_tras_put bd_monitor _ 1 solo_stock_10). vm_compute. reflexivity.
Defined.

(** ** The listing and the other requests *)









(** *** A creation and the listing *)






(** *** A deletion and the listing *)








(** *** The listing and the order of the rows in the table *)

Lemma sorted_perm_igual (s1 s2 : list Producto) :
  StronglySorted por_id s1 -> StronglySorted por_id s2 ->
  Permutation s1 s2 -> NoDup (map id s1) -> s1 = s2.
Proof.
  intros S1. revert s2. induction S1 as [|a s1 S1 IH Ha]; intros s2 S2 P N.
  - apply Permutation_nil in P. auto.
  - destruct S2 as [|b s2 S2 Hb].
    + apply Permutation_sym, Permutation_nil in P. discriminate.
    + inversion N as [|? ? Hn N1]; subst.
      assert (Ia : In a (b :: s2)) by (apply (Permutation_in _ P); left; auto).
      assert (Ib : In b (a :: s1))
        by (apply (Permutation_in _ (Permutation_sym P)); left; auto).
      rewrite Forall_forall in Ha, Hb.
      assert (E : b = a).
      { destruct Ib as [Eb | Ib]; [auto|]. exfalso.
        destruct Ia as [Ea | Ia]; [subst; apply Hn, in_map, Ib|].
        specialize (Ha b Ib). specialize (Hb a Ia). unfold por_id in *.
        apply Hn. replace (id a) with (id b) by lia. apply in_map, Ib. }
      subst b. f_equal. apply IH; try assumption.
      exact (Permutation_cons_inv P).
Qed.

(** X8. The listing does not depend on the order in which the table holds
    its rows: two tables with the same rows, whose ids are distinct, get
    the same response to GET /productos. *)
Theorem listado_estable (db1 db2 : BaseDatos) :
  NoDup (map id (productos db1)) ->
  Permutation (productos db1) (productos db2) ->
  order_by_id (productos db1) = order_by_id (productos db2) /\
  snd (get_productos db1) = snd (get_productos db2).
Proof.
  intros N P.
  assert (O : order_by_id (productos db1) = order_by_id (productos db2)).
  { apply sorted_perm_igual; try apply order_by_id_sorted.
    - apply perm_trans with (productos db1); [apply order_by_id_perm|].
      apply perm_trans with (productos db2); [exact P|].
      apply Permutation_sym, order_by_id_perm.
    - apply (Permutation_NoDup (l := map id (productos db1))); [|exact N].
      apply Permutation_map, Permutation_sym, order_by_id_perm. }
  split; [exact O|].
  unfold get_productos, obtener_productos. cbn [snd]. rewrite O. reflexivity.
Qed.

Lemma listado_estable_witness :
  snd (get_productos bd_dos) =
  snd (get_productos (mkBaseDatos (rev (productos bd_dos)) 2)).
Proof.
  apply (listado_estable bd_dos (mkBaseDatos (rev (productos bd_dos)) 2)).
  - simpl. repeat constructor; simpl; intuition discriminate.
  - apply Permutation_rev.
Defined.

(** ** A request and the products it does not target *)

Lemma find_app_Some (k : Z) (l l' : list Producto) (p : Producto) :
  find (tiene_id k) l = Some p -> find (tiene_id k) (l ++ l') = Some p.
Proof.
  induction l as [|q l IH]; simpl; [discriminate|].
  destruct (tiene_id k q); auto.
Qed.

(** X9. A request changes no product but the one it targets: a product
    stored under [k] is stored under [k], with the same fields, after any
    request that is not a PUT or a DELETE on [k]; in particular after any
    POST and after a PUT or a DELETE on another id, however they end. *)
Theorem peticion_aislada (db : BaseDatos) (r : peticion) (k : Z)
    (p : Producto) :
  db_get db k = Some p -> escribe_en k r = false ->
  db_get (fst (atender db r)) k = Some p.
Proof.
  intros G W. destruct r as [b| |k'|k' b|k']; cbn [atender].
  - destruct (post_productos_productos db b)
      as [-> | [(_ & ->) | (f & _ & _ & _ & _ & _ & Ep)]];
      [exact G | exact G |].
    unfold db_get in *. rewrite Ep. apply find_app_Some. exact G.
  - destruct (get_productos_no_crea db) as [-> _]. exact G.
  - destruct (get_no_crea db k') as [-> _]. exact G.
  - simpl in W. apply Z.eqb_neq in W.
    destruct (db_get db k') as [q|] eqn:G'.
    + destruct (put_producto_casos db k' b q G')
        as [(_ & ->) | [(u & _ & _ & ->) | (u & f & db' & _ & _ & EU & _ & ->)]];
        try exact G.
      simpl fst. destruct (UPDATE_Some _ _ _ EU) as (_ & _ & _ & Ho & _).
      rewrite Ho; [exact G|]. rewrite aplicar_id.
      apply db_get_Some in G'. destruct G' as [_ ->]. lia.
    + destruct (put_producto_productos db k' b)
        as [-> | (q & _ & _ & G2 & _)]; [exact G | congruence].
  - simpl in W. apply Z.eqb_neq in W.
    destruct (delete_producto_productos db k') as [_ Ep].
    unfold db_get in *. rewrite Ep, find_filter_otro by lia. exact G.
Qed.

Lemma peticion_aislada_witness :
  db_get (fst (atender bd_dos (DELETE_producto 1))) 2 = db_get bd_dos 2.
Proof.
  refine (peticion_aislada bd_dos (DELETE_producto 1) 2 _ eq_refl eq_refl).
Defined.

(** ** The bodies that [ProductoCreate] accepts *)

Lemma validar_create_completo (b : cuerpo) (n d : str) (x : float) (s : Z) :
  b_nombre b = Valor n -> 1 <= len n <= 100 ->
  b_descripcion b = Valor d -> 1 <= len d <= 350 ->
  b_precio b = Valor x -> (0 <? x)%float = true ->
  b_stock b = Valor s -> 0 <= s ->
  validar_create b = Some (mkProductoCreate n d x s (opcional (b_categoria b))).
Proof.
  intros En Ln Ed Ld Ex Lx Es Ls. unfold validar_create.
  rewrite En, Ed, Ex, Es. simpl.
  rewrite (comprobar_ok (longitud_ok 1 100))
    by (apply longitud_ok_spec; exact Ln). simpl.
  rewrite (comprobar_ok (longitud_ok 1 350))
    by (apply longitud_ok_spec; exact Ld). simpl.
  rewrite (comprobar_ok gt0) by exact Lx. simpl.
  rewrite (comprobar_ok ge0) by (apply Z.leb_le; exact Ls). reflexivity.
Qed.

(** ** Updates that the table refuses *)

(** X11. A PUT on a stored product whose body passes validation and sets
    the name, the description, the price or the stock to [null] is
    answered 500, whatever else the body carries, and the database is left
    as it was: the product keeps its fields. *)
Theorem put_null_500 (db : BaseDatos) (k : Z) (b : cuerpo) (p : Producto) :
  db_get db k = Some p -> validar_update b <> None ->
  b_nombre b = Nulo \/ b_descripcion b = Nulo \/ b_precio b = Nulo \/
  b_stock b = Nulo ->
  put_producto db k b = (db, error_500).
Proof.
  intros G V N.
  destruct (put_producto_casos db k b p G)
    as [(V' & _) | [(u & _ & _ & E) | (u & f & db' & Hu & Ef & _)]].
  - congruence.
  - exact E.
  - exfalso. apply validar_update_Some in Hu. destruct Hu as (-> & _).
    rewrite aplicar_dump in Ef. simpl in Ef.
    destruct (fila_Some _ _ Ef)
      as (_ & (n & _ & Hn & _) & (d & _ & Hd & _) & (x & Hx & _) &
          (s & Hs & _) & _).
    simpl in Hn, Hd, Hx, Hs.
    destruct N as [N | [N | [N | N]]]; rewrite N in *; discriminate.
Qed.

Lemma put_null_500_witness :
  put_producto bd_monitor 1 precio_nulo = (bd_monitor, error_500).
Proof.
  refine (put_null_500 bd_monitor 1 precio_nulo _ eq_refl _ _).
  - discriminate.
  - right. right. left. reflexivity.
Defined.

Lemma varchar_largo (n : Z) (v : str) :
  n < len v -> forallb (N.eqb 32) (skipn (Z.to_nat n) v) = false ->
  varchar n v = None.
Proof.
  intros L S. unfold varchar. apply Z.leb_gt in L. rewrite L, S. reflexivity.
Qed.

(** X12. A category of more than 50 characters, with a character other
    than a space beyond the 50th, passes validation and is refused by the
    column: a POST whose body is otherwise valid, and a PUT on a stored
    product whose body is otherwise valid, are answered 500 and leave the
    database as it was. *)
Theorem categoria_larga_500 (db : BaseDatos) (b : cuerpo) (v : str) :
  b_categoria b = Valor v -> 50 < len v ->
  forallb (N.eqb 32) (skipn 50 v) = false ->
  (validar_create b <> None -> post_productos db b = (db, error_500)) /\
  (forall k p, db_get db k = Some p -> validar_update b <> None ->
     put_producto db k b = (db, error_500)).
Proof.
  intros Ec L S. pose proof (varchar_largo 50 v L S) as W. split.
  - intros V.
    destruct (post_productos_casos db b)
      as [(N & _) | [(c & db0 & Hc & N & E) |
                     (c & db' & cat & Hc & _ & Wc & _)]].
    + congruence.
    + apply INSERT_None in N. destruct N as [(_ & ->) | (N & _)]; [exact E|].
      exfalso. destruct (fila _) as [f|] eqn:Ef; [|congruence].
      apply validar_create_Some in Hc.
      destruct Hc as (_ & Hn & _ & Hd & _ & _ & _ & _ & Hcat).
      destruct (fila_nuevo _ _ _ Hn Hd Ef) as (cat & Wc & _).
      rewrite Hcat, Ec in Wc. simpl in Wc. rewrite W in Wc. discriminate.
    + exfalso. apply validar_create_Some in Hc.
      destruct Hc as (_ & _ & _ & _ & _ & _ & _ & _ & Hcat).
      rewrite Hcat, Ec in Wc. simpl in Wc. rewrite W in Wc. discriminate.
  - intros k p G V.
    destruct (put_producto_casos db k b p G)
      as [(V' & _) | [(u & _ & _ & E) | (u & f & db' & Hu & Ef & _)]].
    + congruence.
    + exact E.
    + exfalso. apply validar_update_Some in Hu. destruct Hu as (-> & _).
      rewrite aplicar_dump in Ef. simpl in Ef.
      destruct (fila_Some _ _ Ef) as (_ & _ & _ & _ & _ & Hc).
      simpl in Hc. rewrite Ec in Hc. simpl in Hc. rewrite W in Hc.
      discriminate.
Qed.

Lemma categoria_larga_500_witness :
  put_producto bd_monitor 1
    (mkCuerpo Ausente Ausente Ausente Ausente Ausente (Valor (repeat 97%N 51))) =
  (bd_monitor, error_500).
Proof.
  refine (proj2 (categoria_larga_500 bd_monitor
                   (mkCuerpo Ausente Ausente Ausente Ausente Ausente
                      (Valor (repeat 97%N 51)))
                   (repeat 97%N 51) eq_refl _ _) 1 _ eq_refl _).
  - vm_compute. reflexivity.
  - vm_compute. reflexivity.
  - discriminate.
Defined.

(** ** How many products the table holds *)





(** ** The bounds of an update are the bounds of a creation *)

(** X14. A body that POST accepts is a body that PUT accepts, and a body
    that PUT accepts and that carries a name, a description, a price and a
    stock is a body that POST accepts: the two models put the same bounds
    on the values. *)
Theorem mismas_cotas_create_update (b : cuerpo) :
  (validar_create b <> None -> validar_update b <> None) /\
  (validar_update b <> None ->
   (exists n d x s, b_nombre b = Valor n /\ b_descripcion b = Valor d /\
                    b_precio b = Valor x /\ b_stock b = Valor s) ->
   validar_create b <> None).
Proof.
  split.
  - intros V. destruct (validar_create b) as [c|] eqn:E; [|congruence].
    destruct (validar_create_Some _ _ E)
      as (En & Ln & Ed & Ld & Ex & Lx & Es & Ls & _).
    unfold validar_update. rewrite En, Ed, Ex, Es. simpl.
    rewrite !comprobar_ok by assumption. simpl.
    destruct (b_categoria b); discriminate.
  - intros V (n & d & x & s & En & Ed & Ex & Es).
    destruct (validar_update b) as [u|] eqn:E; [|congruence].
    destruct (validar_update_Some _ _ E) as (_ & Vn & Vd & Vx & Vs).
    specialize (Vn n En). specialize (Vd d Ed).
    specialize (Vx x Ex). specialize (Vs s Es).
    apply longitud_ok_spec in Vn, Vd. apply Z.leb_le in Vs.
    rewrite (validar_create_completo b n d x s); auto. discriminate.
Qed.

(** ** An update that changes nothing *)




(** ** Updates of different products *)

Lemma put_como_efecto (db : BaseDatos) (k : Z) (b : cuerpo) :
  put_producto db k b =
  (escribir db k (fst (efecto_put (db_get db k) b)),
   snd (efecto_put (db_get db k) b)) /\
  (forall f, fst (efecto_put (db_get db k) b) = Some f -> id f = k).
Proof.
  unfold efecto_put. destruct (db_get db k) as [p|] eqn:G.
  - destruct (put_producto_casos db k b p G)
      as [(V & E) | [(u & V & N & E) | (u & f & db' & V & Ef & EU & _ & E)]];
      rewrite V.
    + split; [exact E | discriminate].
    + rewrite N. split; [exact E | discriminate].
    + rewrite Ef. pose proof (put_fila_id _ _ _ _ _ G Ef) as Hid. simpl.
      split; [|intros f' Hf'; congruence].
      rewrite E. f_equal. apply BaseDatos_eq; simpl.
      * destruct (UPDATE_productos _ _ _ EU) as (g & Eg & ->).
        assert (g = f) as -> by congruence.
        rewrite aplicar_id. apply db_get_Some in G. destruct G as [_ ->].
        reflexivity.
      * destruct (UPDATE_Some _ _ _ EU) as (_ & _ & _ & _ & _ & Hs). exact Hs.
  - unfold put_producto, actualizar_producto.
    destruct (validar_update b); [rewrite G|]; simpl;
      (split; [reflexivity | discriminate]).
Qed.

Lemma db_get_escribir_otro (db : BaseDatos) (k k' : Z) (o : option Producto) :
  (forall f, o = Some f -> id f = k) -> k' <> k ->
  db_get (escribir db k o) k' = db_get db k'.
Proof.
  intros Hid Hk. destruct o as [f|]; simpl; [|reflexivity].
  unfold db_get. simpl. apply find_map_otro; [apply Hid; reflexivity | exact Hk].
Qed.

Lemma escribir_conmuta (db : BaseDatos) (k1 k2 : Z) (o1 o2 : option Producto) :
  (forall f, o1 = Some f -> id f = k1) ->
  (forall f, o2 = Some f -> id f = k2) -> k1 <> k2 ->
  escribir (escribir db k1 o1) k2 o2 = escribir (escribir db k2 o2) k1 o1.
Proof.
  intros H1 H2 Hk. destruct o1 as [f1|], o2 as [f2|]; simpl; try reflexivity.
  specialize (H1 f1 eq_refl). specialize (H2 f2 eq_refl).
  f_equal. rewrite !map_map. apply map_ext. intros q. cbv beta.
  destruct (tiene_id k1 q) eqn:E1; destruct (tiene_id k2 q) eqn:E2;
    rewrite ?E1, ?E2.
  - apply tiene_id_spec in E1, E2. lia.
  - replace (tiene_id k2 f1) with false;
      [reflexivity | symmetry; apply tiene_id_false; lia].
  - replace (tiene_id k1 f2) with false;
      [reflexivity | symmetry; apply tiene_id_false; lia].
  - reflexivity.
Qed.

(** X16. Two PUTs on different ids can be served in either order: each
    gets the response it would get if it were served alone, and the
    database that the two leave is the same. *)
Theorem put_conmutan (db : BaseDatos) (k1 k2 : Z) (b1 b2 : cuerpo) :
  k1 <> k2 ->
  fst (put_producto (fst (put_producto db k1 b1)) k2 b2) =
  fst (put_producto (fst (put_producto db k2 b2)) k1 b1) /\
  snd (put_producto (fst (put_producto db k1 b1)) k2 b2) =
  snd (put_producto db k2 b2) /\
  snd (put_producto (fst (put_producto db k2 b2)) k1 b1) =
  snd (put_producto db k1 b1).
Proof.
  intros Hk.
  destruct (put_como_efecto db k1 b1) as [E1 I1].
  destruct (put_como_efecto db k2 b2) as [E2 I2].
  destruct (put_como_efecto (fst (put_producto db k1 b1)) k2 b2) as [E12 _].
  destruct (put_como_efecto (fst (put_producto db k2 b2)) k1 b1) as [E21 _].
  rewrite E1 in E12 at 2 3 4. rewrite E2 in E21 at 2 3 4. cbn [fst] in E12, E21.
  rewrite (db_get_escribir_otro db k1 k2 _ I1) in E12 by lia.
  rewrite (db_get_escribir_otro db k2 k1 _ I2) in E21 by lia.
  rewrite E12, E21, E1, E2. cbn [fst snd].
  split; [|split; reflexivity].
  apply escribir_conmuta; assumption.
Qed.

Lemma put_conmutan_witness :
  fst (put_producto (fst (put_producto bd_dos 1 solo_stock_10)) 2 nombre_nulo) =
  fst (put_producto (fst (put_producto bd_dos 2 nombre_nulo)) 1 solo_stock_10).
Proof.
  refine (proj1 (put_conmutan bd_dos 1 2 solo_stock_10 nombre_nulo _)). lia.
Defined.

(** ** An update and the listing *)





